(** * ytdownloader: a shallow embedding of [ytdl_pro.py]

    The program is orchestration glue around three black boxes: the
    yt-dlp engine, the fake-useragent generator and the multiprocessing
    pool.  The embedding keeps the control flow of the source (the
    [try]/[except]/[finally] blocks, the early [return], the [exit(1)]
    calls) in a small monad with a trace, local variables that outlive a
    raised exception, and Python's exception classes; every black box is a
    field of a world record, so a theorem quantified over worlds holds for
    whatever the libraries and the operating system do. *)

From Stdlib Require Import List String Ascii Bool Arith ZArith Lia.
From Stdlib Require Import Permutation DecimalString.
Import ListNotations.

Open Scope list_scope.
Open Scope string_scope.

Set Implicit Arguments.

(** ** Python strings

    A character is a code point below 256; [str.strip] removes the
    characters for which [str.isspace] holds. *)
Module Str.

Definition isspace (c : ascii) : bool :=
  let n := nat_of_ascii c in
  ((9 <=? n)%nat && (n <=? 13)%nat) || ((28 <=? n)%nat && (n <=? 32)%nat)
  || (n =? 133)%nat || (n =? 160)%nat.

Fixpoint lstrip (s : string) : string :=
  match s with
  | EmptyString => EmptyString
  | String c s' => if isspace c then lstrip s' else s
  end.

Fixpoint rstrip (s : string) : string :=
  match s with
  | EmptyString => EmptyString
  | String c s' =>
      match rstrip s' with
      | EmptyString => if isspace c then EmptyString else String c EmptyString
      | r => String c r
      end
  end.

Definition strip (s : string) : string := rstrip (lstrip s).

(** [s.startswith(p)] *)
Definition startswith (s p : string) : bool := String.prefix p s.

Fixpoint endswith_char (s : string) (c : ascii) : bool :=
  match s with
  | EmptyString => false
  | String d EmptyString => Ascii.eqb d c
  | String _ s' => endswith_char s' c
  end.

(** The truth value of a string: empty is false. *)
Definition truthy (s : string) : bool :=
  match s with EmptyString => false | _ => true end.

(** [str(n)] for the integers the program formats. *)
Definition of_nat (n : nat) : string := NilEmpty.string_of_uint (Nat.to_uint n).
Definition of_Z (z : Z) : string := NilZero.string_of_int (Z.to_int z).

End Str.

(** [posixpath.join] of two components. *)
Definition path_join (a b : string) : string :=
  if Str.startswith b "/" then b
  else if negb (Str.truthy a) || Str.endswith_char a "/"%char then a ++ b
  else a ++ "/" ++ b.

(** ** Exceptions

    [Exception] stands for the classes below Python's [Exception] that the
    handlers of the source tell apart; [KeyboardInterrupt] and
    [SystemExit] derive from [BaseException] only, so [except Exception]
    lets them through. *)
Inductive Exception : Type :=
| DownloadError (msg : string)
| FileNotFoundError (msg : string)
| OSError (msg : string)
| ValueError (msg : string)
| OtherException (msg : string).

Inductive BaseException : Type :=
| Exc (e : Exception)
| KeyboardInterrupt
| SystemExit (code : Z).

(** [str(e)] *)
Definition str_exc (e : Exception) : string :=
  match e with
  | DownloadError m | FileNotFoundError m | OSError m
  | ValueError m | OtherException m => m
  end.

(** What a library call does: it returns or raises an [Exception]. *)
Inductive Result (A : Type) : Type :=
| Ok (a : A)
| Err (e : Exception).
Arguments Err {A} e.

(** ** The data the program passes around *)

(** The tuple [(url, quality, output_dir, cookiefile, quiet_ydl)]. *)
Definition args_tuple : Type := (string * string * string * option string * bool)%type.

(** The tuple [(url, success, error_msg)] a worker returns. *)
Definition result_tuple : Type := (string * bool * option string)%type.

Record Postprocessor : Type := mkPostprocessor {
  key : string;
  add_metadata : bool
}.

(** The dictionary [ydl_opts]; [cookiefile] is [None] while the key is
    absent. *)
Record YdlOpts : Type := mkYdlOpts {
  outtmpl : string;
  format : string;
  merge_output_format : string;
  nocheckcertificate : bool;
  quiet : bool;
  progress_hooks : list unit;
  http_headers : list (string * string);
  postprocessors : list Postprocessor;
  writethumbnail : bool;
  postprocessor_args : list (string * list string);
  cookiefile : option string
}.

Definition set_cookiefile (o : YdlOpts) (c : string) : YdlOpts :=
  mkYdlOpts (outtmpl o) (format o) (merge_output_format o) (nocheckcertificate o)
            (quiet o) (progress_hooks o) (http_headers o) (postprocessors o)
            (writethumbnail o) (postprocessor_args o) (Some c).

Definition POSTPROCESSOR_ARGS : list (string * list string) :=
  [("metadata", ["-map"; "0"; "-map"; "1"; "-c"; "copy"; "-disposition:v:1"; "attached_pic"])].

Definition DEFAULT_OUTPUT_DIR : string := ".".

(** ** Observable events *)
Inductive Level : Type := DEBUG | INFO | WARNING | ERROR.

Inductive Event : Type :=
| Log (lvl : Level) (msg : string)          (* a call of log.debug/info/warning/error *)
| Makedirs (path : string)                  (* os.makedirs(path, exist_ok=True) *)
| PoolStart (processes : Z)                 (* Pool(processes=...) came up *)
| Dispatch (reqs : list args_tuple)         (* pool.imap_unordered(download_video, reqs) *)
| YoutubeDLOpen (opts : YdlOpts)            (* YoutubeDL(ydl_opts) entered *)
| ExtractInfo (url : string)                (* ydl.extract_info(url, download=False) *)
| Download (url : string)                   (* ydl.download([url]) *)
| YoutubeDLClose.                           (* the session's __exit__ *)

(** ** The monad: trace, locals that survive a raise, outcome *)
Inductive Outcome (A : Type) : Type :=
| Returned (a : A)
| Raised (e : BaseException).
Arguments Raised {A} e.

Section Monad.
Variable S : Type.

Definition M (A : Type) : Type := S -> list Event * S * Outcome A.

Definition ret {A} (a : A) : M A := fun s => ([], s, Returned a).

Definition bind {A B} (m : M A) (f : A -> M B) : M B :=
  fun s =>
    match m s with
    | (t, s1, Returned a) =>
        match f a s1 with
        | (t', s2, o) => ((t ++ t')%list, s2, o)
        end
    | (t, s1, Raised e) => (t, s1, Raised e)
    end.

Definition raise {A} (e : BaseException) : M A := fun s => ([], s, Raised e).

Definition emit (ev : Event) : M unit := fun s => ([ev], s, Returned tt).

Definition get : M S := fun s => ([], s, Returned s).

Definition put (s' : S) : M unit := fun _ => ([], s', Returned tt).

(** A library call. *)
Definition call {A} (r : Result A) : M A :=
  match r with
  | Ok a => ret a
  | Err e => raise (Exc e)
  end.

(** [try: body  except ...: handler]; [handler e] is [None] when no
    [except] clause matches [e]. *)
Definition try_except {A} (body : M A) (handler : BaseException -> option (M A)) : M A :=
  fun s =>
    match body s with
    | (t, s1, Returned a) => (t, s1, Returned a)
    | (t, s1, Raised e) =>
        match handler e with
        | Some h =>
            match h s1 with
            | (t', s2, o) => ((t ++ t')%list, s2, o)
            end
        | None => (t, s1, Raised e)
        end
    end.

(** [try: body  finally: fin] *)
Definition try_finally {A} (body : M A) (fin : M unit) : M A :=
  fun s =>
    match body s with
    | (t, s1, o) =>
        match fin s1 with
        | (t', s2, Returned _) => ((t ++ t')%list, s2, o)
        | (t', s2, Raised e) => ((t ++ t')%list, s2, Raised e)
        end
    end.

(** [with enter as x: body x]; [leave] is the context manager's
    [__exit__], run on every way out of the body. *)
Definition with_ {A X} (enter : M X) (leave : M unit) (body : X -> M A) : M A :=
  bind enter (fun x => try_finally (body x) leave).

(** [for x in xs: body x] *)
Fixpoint for_each {X} (xs : list X) (body : X -> M unit) : M unit :=
  match xs with
  | [] => ret tt
  | x :: xs' => bind (body x) (fun _ => for_each xs' body)
  end.

Definition when (b : bool) (m : M unit) : M unit := if b then m else ret tt.

End Monad.

Arguments ret {S A} a.
Arguments raise {S A} e.
Arguments emit {S} ev.
Arguments get {S}.
Arguments put {S} s'.
Arguments call {S A} r.

Declare Scope py_scope.
Delimit Scope py_scope with py.
Notation "x <- m ;; k" := (bind m (fun x => k))
  (at level 61, m at next level, right associativity) : py_scope.
Notation "m ;; k" := (bind m (fun _ => k))
  (at level 61, right associativity) : py_scope.
Open Scope py_scope.

Definition log {S} (lvl : Level) (msg : string) : M S unit := emit (Log lvl msg).

(** Projections of a finished run. *)
Definition trace_of {S A} (r : list Event * S * Outcome A) : list Event := fst (fst r).
Definition locals_of {S A} (r : list Event * S * Outcome A) : S := snd (fst r).
Definition outcome_of {S A} (r : list Event * S * Outcome A) : Outcome A := snd r.

(** ** The item worker: [download_video] *)

(** What one worker process sees of the outside. *)
Record WorkerWorld : Type := mkWorkerWorld {
  (** the module global [ua]: [None] when [UserAgent()] failed at import,
      else what [ua.random] does in this worker *)
  ua : option (Result string);
  abspath : string -> string;                 (* os.path.abspath *)
  dirname : string -> string;                 (* os.path.dirname *)
  path_exists : string -> bool;               (* os.path.exists *)
  YoutubeDL_enter : YdlOpts -> Result unit;   (* YoutubeDL(ydl_opts).__enter__ *)
  (** [ydl.extract_info]: Python's [None], or a dictionary of which only
      the key ['title'] is read *)
  extract_info : YdlOpts -> string -> Result (option (option string));
  download : YdlOpts -> list string -> Result unit;   (* ydl.download *)
  YoutubeDL_exit : YdlOpts -> Result unit;    (* the session's __exit__ *)
  format_exc : Exception -> string            (* traceback.format_exc() *)
}.

Definition opt_truthy (o : option string) : bool :=
  match o with
  | Some s => Str.truthy s
  | None => false
  end.

Definition format_selector (quality : string) : string :=
  "bestvideo[height<=" ++ quality ++ "][ext=mp4]+bestaudio[ext=m4a]/bestvideo[height<="
  ++ quality ++ "]+bestaudio/best[height<=" ++ quality ++ "]".

(** The body of the [try] block.  The local variable [video_title] is the
    state of the worker's monad: the handlers read the value it had when
    the exception was raised. *)
Definition download_video_try (w : WorkerWorld) (args : args_tuple) : M string result_tuple :=
  let '(url, quality, output_dir, cookie, quiet_ydl) := args in
  user_agent <- match ua w with
                | Some random => call random
                | None => ret "Mozilla/5.0"
                end ;;
  let output_template :=
    abspath w (path_join output_dir "%(title)s [%(id)s].%(ext)s") in
  let ydl_opts0 :=
    {| outtmpl := output_template;
       format := format_selector quality;
       merge_output_format := "mp4";
       nocheckcertificate := false;
       quiet := quiet_ydl;
       progress_hooks := [];
       http_headers := [("User-Agent", user_agent)];
       postprocessors := [ {| key := "FFmpegMetadata"; add_metadata := true |} ];
       writethumbnail := true;
       postprocessor_args := POSTPROCESSOR_ARGS;
       cookiefile := None |} in
  ydl_opts <- match cookie with
              | Some c =>
                  if Str.truthy c && path_exists w c then
                    log DEBUG ("Using cookie file: " ++ c ++ " for " ++ url) ;;
                    ret (set_cookiefile ydl_opts0 c)
                  else if Str.truthy c then
                    log WARNING ("Cookie file specified but not found: " ++ c) ;;
                    ret ydl_opts0
                  else ret ydl_opts0
              | None => ret ydl_opts0
              end ;;
  with_ (emit (YoutubeDLOpen ydl_opts) ;; call (YoutubeDL_enter w ydl_opts))
        (emit YoutubeDLClose ;; call (YoutubeDL_exit w ydl_opts))
        (fun _ =>
           log DEBUG ("Starting download: " ++ url ++ " with UA: " ++ user_agent) ;;
           emit (ExtractInfo url) ;;
           info_dict <- call (extract_info w ydl_opts url) ;;
           video_title <- match info_dict with
                          | Some (Some title) => ret title
                          | Some None => ret url
                          | None => raise (Exc (OtherException
                              "'NoneType' object has no attribute 'get'"))
                          end ;;
           put video_title ;;
           log INFO ("Downloading: '" ++ video_title ++ "' (" ++ url ++ ") to '"
                     ++ dirname w output_template ++ "'") ;;
           emit (Download url) ;;
           call (download w ydl_opts [url]) ;;
           log INFO ("Finished: '" ++ video_title ++ "' (" ++ url ++ ")") ;;
           ret (url, true, None)).

(** The two [except] clauses, [DownloadError] first. *)
Definition download_video_except (w : WorkerWorld) (url : string)
  (exn : BaseException) : option (M string result_tuple) :=
  match exn with
  | Exc (DownloadError _ as e) =>
      Some ( video_title <- get ;;
             log ERROR ("yt-dlp error downloading '" ++ video_title ++ "' (" ++ url
                        ++ "): " ++ str_exc e) ;;
             ret (url, false, Some (str_exc e)) )
  | Exc e =>
      Some ( video_title <- get ;;
             log ERROR ("Unexpected error downloading '" ++ video_title ++ "' (" ++ url
                        ++ "): " ++ str_exc e) ;;
             log DEBUG (format_exc w e) ;;
             ret (url, false, Some ("Unexpected error: " ++ str_exc e)) )
  | _ => None
  end.

Definition url_of (args : args_tuple) : string :=
  let '(url, _, _, _, _) := args in url.

Definition download_video (w : WorkerWorld) (args : args_tuple) : M string result_tuple :=
  put (url_of args) ;;
  try_except (download_video_try w args) (download_video_except w (url_of args)).

(** ** The process pool

    One step of the pool as the parent process sees it while it drains
    [pool.imap_unordered]: some pending request finishes ([Finish k]
    picks the request at position [k mod n] of the [n] pending ones, so
    every completion order is a schedule), the user's interruption signal
    arrives, or the pool fails with an exception of its own. *)
Inductive PoolStep : Type :=
| Finish (k : nat)
| Interrupt
| Crash (msg : string).

(** What the parent process sees of the outside. *)
Record World : Type := mkWorld {
  cpu_count : positive;                       (* multiprocessing.cpu_count() *)
  os_abspath : string -> string;              (* os.path.abspath *)
  os_exists : string -> bool;                 (* os.path.exists *)
  (** [os.makedirs(path, exist_ok=True)]: it returns, or raises [OSError]
      (a directory that cannot be created) or anything else
      ([ValueError] for a path with a NUL byte, [RecursionError] for a
      path too deep) *)
  os_makedirs : string -> Result unit;
  (** opening the file and reading all its lines, line ends included *)
  open_lines : string -> Result (list string);
  worker_world : nat -> WorkerWorld;          (* the world of the i-th request's worker *)
  schedule : list PoolStep;
  traceback_format_exc : Exception -> string  (* traceback.format_exc() *)
}.

Definition DEFAULT_PROCESSES (W : World) : Z := Z.pos (cpu_count W).

(** The locals of [main] that the [finally] block reads. *)
Record Counters : Type := mkCounters {
  success_count : nat;
  fail_count : nat;
  failed_urls : list (string * option string)
}.

Definition unassigned : Counters := mkCounters 0 0 [].

Fixpoint remove_at {A} (i : nat) (l : list A) : list A :=
  match l with
  | [] => []
  | x :: l' =>
      match i with
      | O => l'
      | S i' => x :: remove_at i' l'
      end
  end.

Section Pool.
Variable S : Type.
Variable W : World.

(** [Pool(processes=n)]: the constructor rejects [n < 1]. *)
Definition Pool (processes : Z) : M S unit :=
  if (processes <? 1)%Z
  then raise (Exc (ValueError "Number of processes must be at least 1"))
  else emit (PoolStart processes).

(** A request runs in its own process, with locals of its own; its
    events are placed where its result reaches the parent. *)
Definition in_worker (job : nat * args_tuple) : M S result_tuple :=
  fun s =>
    match download_video (worker_world W (fst job)) (snd job) EmptyString with
    | (t, _, o) => (t, s, o)
    end.

(** [list(...)] draining the iterator: the list under construction is
    lost when the iteration raises.  The iteration ends when nothing is
    pending; the two other [ret (rev acc)] branches only make the function
    total: [k mod n] is a position of the pending list, and
    [imap_unordered_list] supplies at least one step per request. *)
Fixpoint drain (steps : list PoolStep) (pending : list (nat * args_tuple))
  (acc : list result_tuple) : M S (list result_tuple) :=
  match steps, pending with
  | _, [] => ret (rev acc)
  | [], _ :: _ => ret (rev acc)
  | Finish k :: steps', _ :: _ =>
      let i := k mod List.length pending in
      match nth_error pending i with
      | Some job =>
          r <- in_worker job ;;
          drain steps' (remove_at i pending) (r :: acc)
      | None => ret (rev acc)
      end
  | Interrupt :: _, _ :: _ => raise KeyboardInterrupt
  | Crash msg :: _, _ :: _ => raise (Exc (OtherException msg))
  end.

Definition number {A} (l : list A) : list (nat * A) := combine (seq 0 (List.length l)) l.

(** [list(tqdm(pool.imap_unordered(download_video, download_args), ...))];
    requests the schedule does not mention finish in submission order. *)
Definition imap_unordered_list (download_args : list args_tuple) : M S (list result_tuple) :=
  emit (Dispatch download_args) ;;
  drain (schedule W ++ repeat (Finish 0) (List.length download_args))%list
        (number download_args) [].

End Pool.

Arguments Pool {S} processes.
Arguments in_worker {S} W job.
Arguments drain {S} W steps pending acc.
Arguments imap_unordered_list {S} W download_args.

(** ** The orchestrator: [main] *)

Definition LF : string := String (ascii_of_nat 10) EmptyString.

Definition reason_str (r : option string) : string :=
  match r with
  | Some m => m
  | None => "None"
  end.

(** The [finally] block. *)
Definition print_summary (abs_output_dir : string) : M Counters unit :=
  c <- get ;;
  log INFO "--- Download Summary ---" ;;
  log INFO ("Output directory: " ++ abs_output_dir) ;;
  log INFO ("Successfully downloaded: " ++ Str.of_nat (success_count c) ++ " video(s)") ;;
  log INFO ("Failed to download: " ++ Str.of_nat (fail_count c) ++ " video(s)") ;;
  when (match failed_urls c with [] => false | _ => true end)
       ( log WARNING "Failed URLs:" ;;
         for_each (failed_urls c)
           (fun f => log WARNING ("  - " ++ fst f ++ " (Reason: " ++ reason_str (snd f) ++ ")")) ) ;;
  log INFO "------------------------".

(** One round of the counting loop. *)
Definition count_result (r : result_tuple) : M Counters unit :=
  let '(url, success, error_msg) := r in
  c <- get ;;
  if success
  then put (mkCounters (success_count c + 1) (fail_count c) (failed_urls c))
  else put (mkCounters (success_count c) (fail_count c + 1)
                       (failed_urls c ++ [(url, error_msg)])%list).

Definition main (W : World) (urls : list string) (quality output_dir : string)
  (processes : Z) (cookie : option string) (quiet_ydl : bool) : M Counters unit :=
  log INFO ("Starting download process for " ++ Str.of_nat (List.length urls) ++ " videos.") ;;
  log INFO ("Quality: " ++ quality ++ "p") ;;
  let abs_output_dir := os_abspath W output_dir in
  log INFO ("Output directory: " ++ abs_output_dir) ;;
  log INFO ("Using " ++ Str.of_Z processes ++ " parallel processes.") ;;
  when (opt_truthy cookie) (log INFO ("Using cookie file: " ++ reason_str cookie)) ;;
  (* the first try block; [false] stands for the [return] of its handler *)
  created <- try_except
               ( emit (Makedirs abs_output_dir) ;;
                 call (os_makedirs W abs_output_dir) ;;
                 when (negb (output_dir =? ".")) 
                      (log INFO ("Ensured output directory exists: " ++ abs_output_dir)) ;;
                 ret true )
               (fun exn =>
                  match exn with
                  | Exc (OSError _ as e) | Exc (FileNotFoundError _ as e) =>
                      Some ( log ERROR ("Failed to create output directory '"
                                        ++ abs_output_dir ++ "': " ++ str_exc e) ;;
                             ret false )
                  | _ => None
                  end) ;;
  if negb created then ret tt
  else
    let download_args := map (fun url => (url, quality, output_dir, cookie, quiet_ydl)) urls in
    put (mkCounters 0 0 []) ;;
    try_finally
      (try_except
         ( results <- with_ (Pool processes) (ret tt)
                            (fun _ => imap_unordered_list W download_args) ;;
           for_each results count_result )
         (fun exn =>
            match exn with
            | KeyboardInterrupt =>
                Some (log WARNING (LF ++ "Download interrupted by user."))
            | Exc e =>
                Some ( log ERROR ("An critical error occurred during multiprocessing: "
                                  ++ str_exc e) ;;
                       log DEBUG (traceback_format_exc W e) )
            | SystemExit _ => None
            end))
      (print_summary abs_output_dir).

(** ** The command line: the [__main__] block *)

(** The namespace [argparse] returns, defaults filled in. *)
Record Args : Type := mkArgs {
  args_urls : option (list string);
  args_file : option string;
  args_quality : string;
  args_output : string;
  args_processes : Z;
  args_cookiefile : option string;
  args_quiet_ydl : bool;
  args_verbose : bool
}.

Definition exit {S A} (code : Z) : M S A := raise (SystemExit code).

(** The list comprehension over the lines of the URL file. *)
Definition urls_of_lines (lines : list string) : list string :=
  map Str.strip
      (filter (fun line => Str.truthy (Str.strip line) && negb (Str.startswith line "#"))
              lines).

Definition load_file (W : World) (file : string) : M Counters (list string) :=
  let file_path := os_abspath W file in
  try_except
    ( lines <- call (open_lines W file_path) ;;
      let video_urls := urls_of_lines lines in
      match video_urls with
      | [] => log ERROR ("No valid URLs found in file: " ++ file_path) ;; exit 1
      | _ :: _ =>
          log INFO ("Loaded " ++ Str.of_nat (List.length video_urls) ++ " URLs from " ++ file_path) ;;
          ret video_urls
      end )
    (fun exn =>
       match exn with
       | Exc (FileNotFoundError _) =>
           Some (log ERROR ("URL file not found: " ++ file_path) ;; exit 1)
       | Exc e =>
           Some (log ERROR ("Error reading URL file '" ++ file_path ++ "': " ++ str_exc e) ;;
                 exit 1)
       | _ => None
       end).

Definition load_urls (W : World) (args : Args) : M Counters (list string) :=
  match args_urls args with
  | Some (u :: us) => ret (u :: us)
  | _ =>
      if opt_truthy (args_file args)
      then load_file W (reason_str (args_file args))
      else ret []
  end.

Definition resolve_processes (W : World) (args : Args) : M Counters Z :=
  if (args_processes args <=? 0)%Z
  then log WARNING ("Invalid process count (" ++ Str.of_Z (args_processes args)
                    ++ "). Using default: " ++ Str.of_Z (DEFAULT_PROCESSES W)) ;;
       ret (DEFAULT_PROCESSES W)
  else ret (args_processes args).

Definition resolve_cookie (W : World) (args : Args) : M Counters (option string) :=
  if opt_truthy (args_cookiefile args)
  then let cookie_path := os_abspath W (reason_str (args_cookiefile args)) in
       when (negb (os_exists W cookie_path))
            (log WARNING ("Specified cookie file does not exist: " ++ cookie_path)) ;;
       ret (Some cookie_path)
  else ret None.

Definition script (W : World) (args : Args) : M Counters unit :=
  when (args_verbose args) (log DEBUG "Verbose logging enabled.") ;;
  video_urls <- load_urls W args ;;
  processes <- resolve_processes W args ;;
  cookie_path <- resolve_cookie W args ;;
  main W video_urls (args_quality args) (args_output args) processes cookie_path
       (args_quiet_ydl args).

(** Running the program: its events and the status the process ends with. *)
Definition run (W : World) (args : Args) : list Event * Counters * Outcome unit :=
  script W args unassigned.

Definition exit_status (o : Outcome unit) : Z :=
  match o with
  | Returned _ => 0
  | Raised (SystemExit code) => code
  | Raised _ => 1
  end.

(** ** Reading a trace *)

Definition is_log (e : Event) : bool :=
  match e with
  | Log _ _ => true
  | _ => false
  end.

(** Events of the parent process that are not log lines. *)
Definition orchestrator_only (e : Event) : bool :=
  match e with
  | Makedirs _ | PoolStart _ | Dispatch _ => true
  | _ => false
  end.

(** Pool and engine activity: everything but log lines and [Makedirs]. *)
Definition is_work (e : Event) : bool :=
  match e with
  | Log _ _ | Makedirs _ => false
  | _ => true
  end.

Definition log_only (t : list Event) : bool := forallb is_log t.
Definition worker_events (t : list Event) : bool :=
  forallb (fun e => negb (orchestrator_only e)) t.
Definition no_work (t : list Event) : bool := forallb (fun e => negb (is_work e)) t.

Definition Level_eqb (a b : Level) : bool :=
  match a, b with
  | DEBUG, DEBUG | INFO, INFO | WARNING, WARNING | ERROR, ERROR => true
  | _, _ => false
  end.

(** Was [msg] logged at level [lvl]? *)
Definition logged (lvl : Level) (msg : string) (t : list Event) : bool :=
  existsb (fun e => match e with
                    | Log l m => Level_eqb l lvl && (m =? msg)
                    | _ => false
                    end) t.

(** The request lists handed to the pool, in order. *)
Fixpoint dispatched (t : list Event) : list (list args_tuple) :=
  match t with
  | [] => []
  | Dispatch reqs :: t' => reqs :: dispatched t'
  | _ :: t' => dispatched t'
  end.

(** The sizes of the pools that came up. *)
Fixpoint pool_starts (t : list Event) : list Z :=
  match t with
  | [] => []
  | PoolStart n :: t' => n :: pool_starts t'
  | _ :: t' => pool_starts t'
  end.

(** The option bundles handed to the engine. *)
Fixpoint opened (t : list Event) : list YdlOpts :=
  match t with
  | [] => []
  | YoutubeDLOpen o :: t' => o :: opened t'
  | _ :: t' => opened t'
  end.

(** ** The orchestrator's run in closed form *)

(** What one round of the counting loop does to the counters. *)
Definition count_step (c : Counters) (r : result_tuple) : Counters :=
  let '(url, success, error_msg) := r in
  if success
  then mkCounters (success_count c + 1) (fail_count c) (failed_urls c)
  else mkCounters (success_count c) (fail_count c + 1)
                  (failed_urls c ++ [(url, error_msg)])%list.

Definition tally (results : list result_tuple) : Counters :=
  fold_left count_step results (mkCounters 0 0 []).

Definition succeeded (r : result_tuple) : bool := snd (fst r).
Definition result_url (r : result_tuple) : string := fst (fst r).

Definition failure_line (f : string * option string) : Event :=
  Log WARNING ("  - " ++ fst f ++ " (Reason: " ++ reason_str (snd f) ++ ")").

(** The lines the [finally] block logs for given counters. *)
Definition summary_block (abs_output_dir : string) (c : Counters) : list Event :=
  ([ Log INFO "--- Download Summary ---";
     Log INFO ("Output directory: " ++ abs_output_dir);
     Log INFO ("Successfully downloaded: " ++ Str.of_nat (success_count c) ++ " video(s)");
     Log INFO ("Failed to download: " ++ Str.of_nat (fail_count c) ++ " video(s)") ]
   ++ match failed_urls c with
      | [] => []
      | _ :: _ => Log WARNING "Failed URLs:" :: map failure_line (failed_urls c)
      end
   ++ [ Log INFO "------------------------" ])%list.

(** The lines [main] logs before it touches the file system. *)
Definition main_header (W : World) (urls : list string) (quality output_dir : string)
  (processes : Z) (cookie : option string) : list Event :=
  ([ Log INFO ("Starting download process for " ++ Str.of_nat (List.length urls) ++ " videos.");
     Log INFO ("Quality: " ++ quality ++ "p");
     Log INFO ("Output directory: " ++ os_abspath W output_dir);
     Log INFO ("Using " ++ Str.of_Z processes ++ " parallel processes.") ]
   ++ (if opt_truthy cookie then [Log INFO ("Using cookie file: " ++ reason_str cookie)] else []))%list.

Definition ensured (W : World) (output_dir : string) : list Event :=
  if output_dir =? "." then []
  else [Log INFO ("Ensured output directory exists: " ++ os_abspath W output_dir)].

(** [download_args], line 115. *)
Definition requests (urls : list string) (quality output_dir : string)
  (cookie : option string) (quiet_ydl : bool) : list args_tuple :=
  map (fun url => (url, quality, output_dir, cookie, quiet_ydl)) urls.

(** The result a request's worker hands back. *)
Definition ran (W : World) (job : nat * args_tuple) (r : result_tuple) : Prop :=
  outcome_of (download_video (worker_world W (fst job)) (snd job) EmptyString) = Returned r.

Definition is_finish (st : PoolStep) : bool :=
  match st with
  | Finish _ => true
  | _ => false
  end.

Definition is_interrupt (st : PoolStep) : bool :=
  match st with
  | Interrupt => true
  | _ => false
  end.

(** The worker count and the cookie path the script passes to [main]. *)
Definition effective_processes (W : World) (args : Args) : Z :=
  if (args_processes args <=? 0)%Z then DEFAULT_PROCESSES W else args_processes args.

Definition cookie_path (W : World) (args : Args) : option string :=
  if opt_truthy (args_cookiefile args)
  then Some (os_abspath W (reason_str (args_cookiefile args)))
  else None.

(** The lines the script logs between loading the URLs and calling [main]. *)
Definition verbose_line (args : Args) : list Event :=
  if args_verbose args then [Log DEBUG "Verbose logging enabled."] else [].

Definition processes_warning (W : World) (args : Args) : list Event :=
  if (args_processes args <=? 0)%Z
  then [Log WARNING ("Invalid process count (" ++ Str.of_Z (args_processes args)
                     ++ "). Using default: " ++ Str.of_Z (DEFAULT_PROCESSES W))]
  else [].

Definition cookie_warning (W : World) (args : Args) : list Event :=
  match cookie_path W args with
  | Some path =>
      if os_exists W path then []
      else [Log WARNING ("Specified cookie file does not exist: " ++ path)]
  | None => []
  end.

Definition cookie_of (args : args_tuple) : option string :=
  let '(_, _, _, cookie, _) := args in cookie.

(** The first line of the summary block. *)
Definition summary_header : string := "--- Download Summary ---".

(** ** The spec's wording, for comparison with the code *)

Fixpoint all_space (s : string) : bool :=
  match s with
  | EmptyString => true
  | String c s' => Str.isspace c && all_space s'
  end.

Definition begins_with_hash (s : string) : bool :=
  match s with
  | String c _ => Ascii.eqb c "#"%char
  | EmptyString => false
  end.

(** Following the spec's words: blank lines and lines beginning with [#]
    are skipped, the remaining lines, stripped, become the URL list. *)
Fixpoint spec_url_list (lines : list string) : list string :=
  match lines with
  | [] => []
  | line :: rest =>
      if all_space line || begins_with_hash line
      then spec_url_list rest
      else Str.strip line :: spec_url_list rest
  end.

(** Following the spec's words (its data model): a request carries an
    optional identity override. *)
Record DownloadRequest : Type := mkDownloadRequest {
  req_url : string;
  req_quality : string;
  req_outputDir : string;
  req_identityOverride : option string;
  req_credentialFile : option string;
  req_quiet : bool
}.

(** Following the spec's words: the override when provided, else a freshly
    generated string, else the fixed default. *)
Definition spec_identity (req : DownloadRequest) (generated : option string) : string :=
  match req_identityOverride req, generated with
  | Some override, _ => override
  | None, Some fresh => fresh
  | None, None => "Mozilla/5.0"
  end.

(** The tuple the code has room for: no slot takes the override. *)
Definition request_args (req : DownloadRequest) : args_tuple :=
  (req_url req, req_quality req, req_outputDir req, req_credentialFile req, req_quiet req).

(** The bundle [download_video] hands to the engine when the identity
    generator does not raise. *)
Definition user_agent_of (w : WorkerWorld) : string :=
  match ua w with
  | Some (Ok random) => random
  | _ => "Mozilla/5.0"
  end.

Definition built_opts (w : WorkerWorld) (args : args_tuple) : YdlOpts :=
  let '(url, quality, output_dir, cookie, quiet_ydl) := args in
  {| outtmpl := abspath w (path_join output_dir "%(title)s [%(id)s].%(ext)s");
     format := format_selector quality;
     merge_output_format := "mp4";
     nocheckcertificate := false;
     quiet := quiet_ydl;
     progress_hooks := [];
     http_headers := [("User-Agent", user_agent_of w)];
     postprocessors := [ {| key := "FFmpegMetadata"; add_metadata := true |} ];
     writethumbnail := true;
     postprocessor_args := POSTPROCESSOR_ARGS;
     cookiefile := match cookie with
                   | Some c => if Str.truthy c && path_exists w c then Some c else None
                   | None => None
                   end |}.

(** ** Concrete worlds *)
Module Ex.

(** An engine that resolves every URL and fails the transfer of
    [https://b] with a download error. *)
Definition worker : WorkerWorld :=
  {| ua := Some (Ok "UA-1");
     abspath := fun p => "/home/u/" ++ p;
     dirname := fun _ => "/home/u/out";
     path_exists := fun p => p =? "/home/u/cookies.txt";
     YoutubeDL_enter := fun _ => Ok tt;
     extract_info := fun _ u => Ok (Some (Some ("title of " ++ u)));
     download := fun _ us =>
       match us with
       | ["https://b"] => Err (DownloadError "ERROR: Video unavailable")
       | _ => Ok tt
       end;
     YoutubeDL_exit := fun _ => Ok tt;
     format_exc := fun _ => "Traceback (most recent call last): ..." |}.

Definition url_file : list string :=
  [ "https://a" ++ LF; "# a comment" ++ LF; LF; "  https://b  " ++ LF ].

Definition world (steps : list PoolStep) (mkdir : option string) : World :=
  {| cpu_count := 4%positive;
     os_abspath := fun p => "/home/u/" ++ p;
     os_exists := fun p => p =? "/home/u/cookies.txt";
     os_makedirs := fun _ =>
       match mkdir with
       | None => Ok tt
       | Some msg => Err (OSError msg)
       end;
     open_lines := fun p =>
       if p =? "/home/u/urls.txt" then Ok url_file
       else Err (FileNotFoundError ("[Errno 2] No such file or directory: '" ++ p ++ "'"));
     worker_world := fun _ => worker;
     schedule := steps;
     traceback_format_exc := fun _ => "Traceback (most recent call last): ..." |}.

Definition urls : list string := ["https://a"; "https://b"; "https://c"].

Definition inline (processes : Z) (cookie : option string) : Args :=
  {| args_urls := Some urls; args_file := None; args_quality := "720";
     args_output := "out"; args_processes := processes; args_cookiefile := cookie;
     args_quiet_ydl := false; args_verbose := false |}.

Definition from_file (file : string) : Args :=
  {| args_urls := None; args_file := Some file; args_quality := "720";
     args_output := "out"; args_processes := 2; args_cookiefile := None;
     args_quiet_ydl := false; args_verbose := false |}.

Definition request : DownloadRequest :=
  {| req_url := "https://a"; req_quality := "720"; req_outputDir := "out";
     req_identityOverride := Some "my-agent/1.0"; req_credentialFile := None;
     req_quiet := false |}.

(** A world whose [os.makedirs] raises [e]. *)
Definition refusing (e : Exception) : World :=
  {| cpu_count := 4%positive;
     os_abspath := fun p => "/home/u/" ++ p;
     os_exists := fun _ => false;
     os_makedirs := fun _ => Err e;
     open_lines := fun p =>
       Err (FileNotFoundError ("[Errno 2] No such file or directory: '" ++ p ++ "'"));
     worker_world := fun _ => worker;
     schedule := [];
     traceback_format_exc := fun _ => "Traceback (most recent call last): ..." |}.

(** An output directory with a NUL byte in its name. *)
Definition nul_dir : string := "out" ++ String Ascii.zero EmptyString.

(** An engine whose metadata resolution yields nothing. *)
Definition worker_without_info : WorkerWorld :=
  {| ua := None;
     abspath := fun p => "/home/u/" ++ p;
     dirname := fun _ => "/home/u/out";
     path_exists := fun _ => false;
     YoutubeDL_enter := fun _ => Ok tt;
     extract_info := fun _ _ => Ok None;
     download := fun _ _ => Ok tt;
     YoutubeDL_exit := fun _ => Ok tt;
     format_exc := fun _ => "Traceback (most recent call last): ..." |}.

End Ex.

(** ** More readings of a trace *)

(** The classes the handler [except OSError] catches. *)
Definition is_OSError (e : Exception) : bool :=
  match e with
  | OSError _ | FileNotFoundError _ => true
  | _ => false
  end.

(** Was anything logged at level [lvl]? *)
Definition logged_at (lvl : Level) (t : list Event) : bool :=
  existsb (fun e => match e with
                    | Log l _ => Level_eqb l lvl
                    | _ => false
                    end) t.

(** How often an engine session was left. *)
Fixpoint closes (t : list Event) : nat :=
  match t with
  | [] => 0
  | YoutubeDLClose :: t' => S (closes t')
  | _ :: t' => closes t'
  end.

(** The URLs a transfer was started for. *)
Fixpoint downloads (t : list Event) : list string :=
  match t with
  | [] => []
  | Download url :: t' => url :: downloads t'
  | _ :: t' => downloads t'
  end.

(** A failed result as the counting loop files it. *)
Definition failure_of (r : result_tuple) : string * option string :=
  (result_url r, snd r).

Definition failed (r : result_tuple) : bool := negb (succeeded r).

(** A result as the worker builds it: success without a message, or
    failure with one. *)
Definition well_formed (r : result_tuple) : Prop :=
  r = (result_url r, true, None) \/ exists m, r = (result_url r, false, Some m).

Definition has_reason (f : string * option string) : Prop := exists m, snd f = Some m.

(** The identity generator is absent or answers. *)
Definition generator_works (w : WorkerWorld) : Prop :=
  match ua w with
  | Some (Err _) => False
  | _ => True
  end.

(** The same world with another completion order. *)
Definition with_schedule (W : World) (steps : list PoolStep) : World :=
  {| cpu_count := cpu_count W;
     os_abspath := os_abspath W;
     os_exists := os_exists W;
     os_makedirs := os_makedirs W;
     open_lines := open_lines W;
     worker_world := worker_world W;
     schedule := steps;
     traceback_format_exc := traceback_format_exc W |}.

(** * The first version of the program: [app.py] *)
Module App.

(** What [app.py] does that can be observed; it prints where
    [ytdl_pro.py] logs. *)
Inductive Out : Type :=
| Print (msg : string)                      (* print(msg) *)
| Mkdir (path : string)                     (* os.makedirs(path) *)
| PoolUp (processes : Z)                    (* Pool(processes=...) came up *)
| Map (jobs : list (string * string * string))  (* pool.map(download_video, jobs) *)
| Open (opts : YdlOpts)                     (* YoutubeDL(ydl_opts) *)
| Transfer (url : string)                   (* ydl.download([url]) *)
| Close.                                    (* the session's __exit__ *)

Definition P (A : Type) : Type := (list Out * Outcome A)%type.

Definition ret {A} (a : A) : P A := ([], Returned a).

Definition bind {A B} (m : P A) (f : A -> P B) : P B :=
  match m with
  | (t, Returned a) =>
      match f a with
      | (t', o) => ((t ++ t')%list, o)
      end
  | (t, Raised e) => (t, Raised e)
  end.

Definition raise {A} (e : BaseException) : P A := ([], Raised e).

Definition emit (ev : Out) : P unit := ([ev], Returned tt).

Definition print (msg : string) : P unit := emit (Print msg).

Definition call {A} (r : Result A) : P A :=
  match r with
  | Ok a => ret a
  | Err e => raise (Exc e)
  end.

(** [try: body  except Exception as e: handler e] *)
Definition try_except_Exception {A} (body : P A) (handler : Exception -> P A) : P A :=
  match body with
  | (t, Raised (Exc e)) =>
      match handler e with
      | (t', o) => ((t ++ t')%list, o)
      end
  | other => other
  end.

(** [with enter as x: body x], [leave] being the [__exit__]. *)
Definition with_ {A X} (enter : P X) (leave : P unit) (body : X -> P A) : P A :=
  bind enter (fun x =>
    match body x with
    | (t, o) =>
        match leave with
        | (t', Returned _) => ((t ++ t')%list, o)
        | (t', Raised e) => ((t ++ t')%list, Raised e)
        end
    end).

Fixpoint for_each {X} (xs : list X) (body : X -> P unit) : P unit :=
  match xs with
  | [] => ret tt
  | x :: xs' => bind (body x) (fun _ => for_each xs' body)
  end.

Declare Scope app_scope.
Delimit Scope app_scope with app.
Notation "x <- m ;; k" := (bind m (fun x => k))
  (at level 61, m at next level, right associativity) : app_scope.
Notation "m ;; k" := (bind m (fun _ => k))
  (at level 61, right associativity) : app_scope.

(** What one worker of [app.py] sees of the outside. *)
Record Worker : Type := mkWorker {
  UserAgent_init : Result unit;               (* UserAgent() *)
  ua_random : Result string;                  (* ua.random *)
  enter : YdlOpts -> Result unit;             (* YoutubeDL(ydl_opts).__enter__ *)
  (** [ydl.download]: the progress dictionaries the engine passes to the
      hook, as their [_percent_str] and [_speed_str], and how the call
      ends *)
  transfer : YdlOpts -> list string -> list (string * string) * Result unit;
  leave : YdlOpts -> Result unit              (* the session's __exit__ *)
}.

(** The dictionary [ydl_opts] of [app.py]; keys it does not set take the
    empty value, and the one progress hook is the [lambda] that prints. *)
Definition ydl_opts (quality output_dir user_agent : string) : YdlOpts :=
  {| outtmpl := path_join output_dir "%(title)s.%(ext)s";
     format := "bestvideo[height<=" ++ quality ++ "]+bestaudio/best[height<=" ++ quality ++ "]";
     merge_output_format := "mp4";
     nocheckcertificate := false;
     quiet := true;
     progress_hooks := [tt];
     http_headers := [("User-Agent", user_agent)];
     postprocessors := [];
     writethumbnail := false;
     postprocessor_args := [];
     cookiefile := Some "cookies.txt" |}.

(** The body of the [try] block of [download_video]. *)
Definition download_video_try (w : Worker) (args : string * string * string) : P unit :=
  (let '(url, quality, output_dir) := args in
   call (UserAgent_init w) ;;
   user_agent <- call (ua_random w) ;;
   let opts := ydl_opts quality output_dir user_agent in
   with_ (emit (Open opts) ;; call (enter w opts))
         (emit Close ;; call (leave w opts))
         (fun _ =>
            print ("Downloading: " ++ url ++ " with User-Agent: " ++ user_agent) ;;
            emit (Transfer url) ;;
            for_each (fst (transfer w opts [url]))
                     (fun d => print ("Progress: " ++ fst d ++ " - " ++ snd d)) ;;
            call (snd (transfer w opts [url])) ;;
            print ("Finished downloading: " ++ url)))%app.

Definition job_url (args : string * string * string) : string := fst (fst args).

Definition download_video (w : Worker) (args : string * string * string) : P unit :=
  try_except_Exception
    (download_video_try w args)
    (fun e => print ("Error downloading " ++ job_url args ++ ": " ++ str_exc e)).

(** What the parent process of [app.py] sees of the outside. *)
Record World : Type := mkWorld {
  path_exists : string -> bool;               (* os.path.exists *)
  makedirs : string -> Result unit;           (* os.makedirs(path) *)
  worker : nat -> Worker;                     (* the world of the i-th job's worker *)
  steps : list PoolStep                       (* what the pool does, step by step *)
}.

(** [pool.map] waiting for its jobs, as [drain] above; every job's
    result is [None]. *)
Fixpoint await (W : World) (todo : list PoolStep)
  (pending : list (nat * (string * string * string))) (acc : list unit) : P (list unit) :=
  match todo, pending with
  | _, [] => ret acc
  | [], _ :: _ => ret acc
  | Finish k :: todo', _ :: _ =>
      let i := k mod List.length pending in
      match nth_error pending i with
      | Some job =>
          bind (download_video (worker W (fst job)) (snd job))
               (fun r => await W todo' (remove_at i pending) (r :: acc))
      | None => ret acc
      end
  | Interrupt :: _, _ :: _ => raise KeyboardInterrupt
  | Crash msg :: _, _ :: _ => raise (Exc (OtherException msg))
  end.

Definition pool_map (W : World) (jobs : list (string * string * string)) : P (list unit) :=
  (emit (Map jobs) ;;
   await W (steps W ++ repeat (Finish 0) (List.length jobs))%list (number jobs) [])%app.

Definition jobs_of (urls : list string) (quality output_dir : string)
  : list (string * string * string) :=
  map (fun url => (url, quality, output_dir)) urls.

Definition main (W : World) (urls : list string) (quality output_dir : string) : P unit :=
  ((if negb (path_exists W output_dir)
    then emit (Mkdir output_dir) ;;
         call (makedirs W output_dir) ;;
         print ("Created output directory: " ++ output_dir)
    else ret tt) ;;
   with_ (emit (PoolUp 4)) (ret tt)
         (fun _ => pool_map W (jobs_of urls quality output_dir)) ;;
   ret tt)%app.

(** Readings of a trace of [app.py]. *)
Fixpoint opened (t : list Out) : list YdlOpts :=
  match t with
  | [] => []
  | Open o :: t' => o :: opened t'
  | _ :: t' => opened t'
  end.

Fixpoint transfers (t : list Out) : list string :=
  match t with
  | [] => []
  | Transfer u :: t' => u :: transfers t'
  | _ :: t' => transfers t'
  end.

Fixpoint mkdirs (t : list Out) : list string :=
  match t with
  | [] => []
  | Mkdir p :: t' => p :: mkdirs t'
  | _ :: t' => mkdirs t'
  end.

Fixpoint pools (t : list Out) : list Z :=
  match t with
  | [] => []
  | PoolUp n :: t' => n :: pools t'
  | _ :: t' => pools t'
  end.

Definition printed (msg : string) (t : list Out) : bool :=
  existsb (fun e => match e with
                    | Print m => m =? msg
                    | _ => false
                    end) t.

(** A worker world in which nothing fails, and a parent world around it. *)
Definition calm : Worker :=
  {| UserAgent_init := Ok tt;
     ua_random := Ok "UA-1";
     enter := fun _ => Ok tt;
     transfer := fun _ _ => ([("50.0%", "1.00MiB/s"); ("100%", "1.20MiB/s")], Ok tt);
     leave := fun _ => Ok tt |}.

Definition world (present : bool) (mk : Result unit) (todo : list PoolStep) : World :=
  {| path_exists := fun _ => present;
     makedirs := fun _ => mk;
     worker := fun _ => calm;
     steps := todo |}.

End App.

(** * Proofs *)

Ltac unfold_py :=
  unfold with_, try_finally, try_except, bind, call, log, emit, put, get, ret,
         raise, when in *.

(** Splits on every oracle answer the goal still inspects. *)
Ltac case_split :=
  repeat match goal with
         | |- context [match ?x with _ => _ end] =>
             match type of x with
             | option _ => destruct x eqn:?
             | Result _ => destruct x eqn:?
             | bool => destruct x eqn:?
             | Exception => destruct x eqn:?
             | unit => destruct x
             end; cbn -[String.append]
         end.

(** ** Traces *)

Lemma worker_events_app t t' :
  worker_events (t ++ t') = worker_events t && worker_events t'.
Proof. apply forallb_app. Qed.

Lemma log_only_app t t' : log_only (t ++ t') = log_only t && log_only t'.
Proof. apply forallb_app. Qed.

Lemma no_work_app t t' : no_work (t ++ t') = no_work t && no_work t'.
Proof. apply forallb_app. Qed.

Lemma logged_app lvl msg t t' :
  logged lvl msg (t ++ t') = logged lvl msg t || logged lvl msg t'.
Proof. apply existsb_app. Qed.

Lemma dispatched_app t t' : dispatched (t ++ t') = (dispatched t ++ dispatched t')%list.
Proof.
  induction t as [|e t IH]; [reflexivity|].
  destruct e; cbn; rewrite IH; reflexivity.
Qed.

Lemma pool_starts_app t t' : pool_starts (t ++ t') = (pool_starts t ++ pool_starts t')%list.
Proof.
  induction t as [|e t IH]; [reflexivity|].
  destruct e; cbn; rewrite IH; reflexivity.
Qed.

Lemma opened_app t t' : opened (t ++ t') = (opened t ++ opened t')%list.
Proof.
  induction t as [|e t IH]; [reflexivity|].
  destruct e; cbn; rewrite IH; reflexivity.
Qed.

Lemma worker_events_dispatched t : worker_events t = true -> dispatched t = [].
Proof.
  induction t as [|e t IH]; [reflexivity|].
  destruct e; cbn; try discriminate; exact IH.
Qed.

Lemma worker_events_pool_starts t : worker_events t = true -> pool_starts t = [].
Proof.
  induction t as [|e t IH]; [reflexivity|].
  destruct e; cbn; try discriminate; exact IH.
Qed.

Lemma log_only_worker_events t : log_only t = true -> worker_events t = true.
Proof.
  induction t as [|e t IH]; [reflexivity|].
  destruct e; cbn; try discriminate; exact IH.
Qed.

Lemma log_only_no_work t : log_only t = true -> no_work t = true.
Proof.
  induction t as [|e t IH]; [reflexivity|].
  destruct e; cbn; try discriminate; exact IH.
Qed.

Lemma log_only_opened t : log_only t = true -> opened t = [].
Proof.
  induction t as [|e t IH]; [reflexivity|].
  destruct e; cbn; try discriminate; exact IH.
Qed.

Lemma downloads_app t t' : downloads (t ++ t') = (downloads t ++ downloads t')%list.
Proof.
  induction t as [|e t IH]; [reflexivity|].
  destruct e; cbn; rewrite IH; reflexivity.
Qed.

Lemma log_only_downloads t : log_only t = true -> downloads t = [].
Proof.
  induction t as [|e t IH]; [reflexivity|].
  destruct e; cbn; try discriminate; exact IH.
Qed.

(** ** The worker *)

Lemma try_outcome w args s :
  match outcome_of (download_video_try w args s) with
  | Returned r => r = (url_of args, true, None)
  | Raised (Exc _) => True
  | Raised _ => False
  end.
Proof.
  destruct args as [[[[url quality] output_dir] cookie] quiet_ydl].
  unfold download_video_try, outcome_of, url_of. unfold_py. cbn -[String.append].
  case_split; auto.
Qed.

Lemma try_events w args s :
  worker_events (trace_of (download_video_try w args s)) = true.
Proof.
  destruct args as [[[[url quality] output_dir] cookie] quiet_ydl].
  unfold worker_events, download_video_try, trace_of, url_of. unfold_py.
  cbn -[String.append].
  case_split; auto.
Qed.

Lemma try_opened w args s :
  opened (trace_of (download_video_try w args s)) =
  match ua w with
  | Some (Err _) => []
  | _ => [built_opts w args]
  end.
Proof.
  destruct args as [[[[url quality] output_dir] cookie] quiet_ydl].
  unfold download_video_try, trace_of, built_opts, user_agent_of. unfold_py.
  cbn -[String.append].
  case_split; try reflexivity; try discriminate.
Qed.

(** The handlers only add log lines, and always return. *)
Lemma download_video_run w args s :
  exists t' ok msg,
    download_video w args s =
      ((trace_of (download_video_try w args (url_of args)) ++ t')%list,
       locals_of (download_video_try w args (url_of args)),
       Returned (url_of args, ok, msg))
    /\ log_only t' = true.
Proof.
  unfold download_video. unfold_py.
  pose proof (try_outcome w args (url_of args)) as Ho.
  destruct (download_video_try w args (url_of args)) as [[t s1] o].
  unfold outcome_of, trace_of, locals_of in *; cbn [fst snd] in *.
  destruct o as [r|[e| |c]]; try contradiction.
  - subst r. exists [], true, None. rewrite app_nil_r. split; reflexivity.
  - destruct e; cbn -[String.append]; do 3 eexists; (split; [reflexivity|reflexivity]).
Qed.

Lemma download_video_returns w args s :
  exists t title ok msg,
    download_video w args s = (t, title, Returned (url_of args, ok, msg))
    /\ worker_events t = true.
Proof.
  destruct (download_video_run w args s) as (t' & ok & msg & E & Hl).
  rewrite E. do 4 eexists. split; [reflexivity|].
  rewrite worker_events_app, try_events, (log_only_worker_events _ Hl). reflexivity.
Qed.

(** C2: the worker turns every outcome of its [try] block into a returned
    tuple.  When the block runs through, the tuple is [(url, True, None)];
    when it raises [DownloadError], the tuple is [(url, False, str(e))]
    and one line is logged at error level; when it raises any other
    [Exception], the tuple is [(url, False, "Unexpected error: " + str(e))]
    and the error line is followed by the traceback at debug level; the
    block raises nothing else, so the worker never raises. *)
Theorem download_video_contains_failures (w : WorkerWorld) (args : args_tuple) (s : string) :
  let url := url_of args in
  let body := download_video_try w args url in
  let title := locals_of body in
  (exists r, outcome_of (download_video w args s) = Returned r) /\
  match outcome_of body with
  | Returned _ =>
      download_video w args s = (trace_of body, title, Returned (url, true, None))
  | Raised (Exc (DownloadError m)) =>
      download_video w args s =
        ((trace_of body
          ++ [Log ERROR ("yt-dlp error downloading '" ++ title ++ "' (" ++ url ++ "): " ++ m)])%list,
         title, Returned (url, false, Some m))
  | Raised (Exc e) =>
      download_video w args s =
        ((trace_of body
          ++ [Log ERROR ("Unexpected error downloading '" ++ title ++ "' (" ++ url
                         ++ "): " ++ str_exc e);
              Log DEBUG (format_exc w e)])%list,
         title, Returned (url, false, Some ("Unexpected error: " ++ str_exc e)))
  | Raised _ => False
  end.
Proof.
  cbv zeta. split.
  - destruct (download_video_returns w args s) as (t & title & ok & msg & E & _).
    rewrite E. eexists. reflexivity.
  - unfold download_video. unfold_py.
    pose proof (try_outcome w args (url_of args)) as Ho.
    destruct (download_video_try w args (url_of args)) as [[t s1] o].
    unfold outcome_of, trace_of, locals_of in *; cbn [fst snd] in *.
    destruct o as [r|[e| |c]]; try contradiction.
    + subst r. reflexivity.
    + destruct e; reflexivity.
Qed.

(** C7 (as amended): whenever the worker hands an option bundle to the
    engine, its output template is the absolute path of the output
    directory joined with the pattern [%(title)s [%(id)s].%(ext)s], its
    format selector asks for the best mp4 video at or below the requested
    height with the best m4a audio, then for any best video at or below
    that height with the best audio, then for the best single stream at or
    below that height, its merge container is mp4, certificate checks are
    on, and its identity string is the one the generator produced, or
    [Mozilla/5.0] when no generator is available; the request itself
    carries no identity.  One bundle is handed over per request unless
    the generator raises. *)
Theorem ydl_opts_contents (w : WorkerWorld) (args : args_tuple) (s : string) :
  let '(url, quality, output_dir, cookie, quiet_ydl) := args in
  let t := trace_of (download_video w args s) in
  match ua w with
  | Some (Err _) => opened t = []
  | _ => exists opts, opened t = [opts]
  end /\
  Forall (fun opts =>
            outtmpl opts = abspath w (path_join output_dir "%(title)s [%(id)s].%(ext)s") /\
            format opts =
              "bestvideo[height<=" ++ quality ++ "][ext=mp4]+bestaudio[ext=m4a]/bestvideo[height<="
              ++ quality ++ "]+bestaudio/best[height<=" ++ quality ++ "]" /\
            merge_output_format opts = "mp4" /\
            nocheckcertificate opts = false /\
            http_headers opts =
              [("User-Agent", match ua w with
                              | Some (Ok fresh) => fresh
                              | _ => "Mozilla/5.0"
                              end)])
         (opened t).
Proof.
  assert (Hopen : opened (trace_of (download_video w args s)) =
                  match ua w with
                  | Some (Err _) => []
                  | _ => [built_opts w args]
                  end).
  { destruct (download_video_run w args s) as (t' & ok & msg & E & Hl).
    rewrite E. unfold trace_of at 1. cbn [fst snd].
    rewrite opened_app, (log_only_opened _ Hl), app_nil_r. apply try_opened. }
  destruct args as [[[[url quality] output_dir] cookie] quiet_ydl].
  cbv zeta. rewrite Hopen. unfold built_opts, user_agent_of.
  destruct (ua w) as [[fresh|e]|].
  - split; [eauto|]. constructor; [|constructor]. cbn. auto.
  - split; [reflexivity|constructor].
  - split; [eauto|]. constructor; [|constructor]. cbn. auto.
Qed.

(** C7, as stated, fails: a request that provides an identity override is
    served with the generated identity string. *)
Lemma identity_override_is_ignored :
  req_identityOverride Ex.request = Some "my-agent/1.0" /\
  map http_headers
      (opened (trace_of (download_video Ex.worker (request_args Ex.request) EmptyString)))
    = [[("User-Agent", "UA-1")]] /\
  [("User-Agent", "UA-1")] <> [("User-Agent", spec_identity Ex.request (Some "UA-1"))].
Proof.
  split; [reflexivity|]. split; [reflexivity|]. cbn. discriminate.
Qed.

Lemma try_cookie_warning w url quality output_dir c quiet_ydl s :
  Str.truthy c = true -> path_exists w c = false ->
  match ua w with
  | Some (Err _) => True
  | _ => exists rest,
      trace_of (download_video_try w (url, quality, output_dir, Some c, quiet_ydl) s)
      = Log WARNING ("Cookie file specified but not found: " ++ c) :: rest
  end.
Proof.
  intros Ht Hp.
  unfold download_video_try, trace_of. unfold_py. rewrite Ht, Hp.
  cbn -[String.append].
  case_split; auto; eexists; reflexivity.
Qed.

(** ** The pool *)

Lemma in_worker_run St W job (s : St) :
  exists t r,
    in_worker W job s = (t, s, Returned r) /\ ran W job r /\ worker_events t = true
    /\ result_url r = url_of (snd job).
Proof.
  unfold in_worker, ran.
  destruct (download_video_returns (worker_world W (fst job)) (snd job) EmptyString)
    as (t & title & ok & msg & E & Ht).
  rewrite E. cbn. eauto 10.
Qed.

Lemma remove_at_length A (l : list A) i x :
  nth_error l i = Some x -> S (List.length (remove_at i l)) = List.length l.
Proof.
  revert i; induction l as [|a l IH]; intros [|i] H; cbn in *; try discriminate; auto.
Qed.

Lemma remove_at_perm A (l : list A) i x :
  nth_error l i = Some x -> Permutation (x :: remove_at i l) l.
Proof.
  revert i; induction l as [|a l IH]; intros [|i] H; cbn in *; try discriminate.
  - injection H as ->. reflexivity.
  - rewrite perm_swap. constructor. eauto.
Qed.

Lemma nth_error_mod A (l : list A) k :
  l <> [] -> exists x, nth_error l (k mod List.length l) = Some x.
Proof.
  intros Hl.
  destruct (nth_error l (k mod List.length l)) eqn:E; eauto.
  apply nth_error_None in E.
  assert (List.length l <> 0) as Hn by (destruct l; cbn; congruence).
  pose proof (Nat.mod_upper_bound k (List.length l) Hn). lia.
Qed.

Section Drain.
Variable St : Type.
Variable W : World.

(** One [Finish] step: some pending request's worker returns, and the
    iteration goes on without it. *)
Lemma drain_step_finish k steps (pending : list (nat * args_tuple)) acc (s : St) :
  pending <> [] ->
  exists job t r,
    nth_error pending (k mod List.length pending) = Some job /\
    ran W job r /\ worker_events t = true /\
    result_url r = url_of (snd job) /\
    drain W (Finish k :: steps) pending acc s =
      (let '(t', s', o) :=
         drain W steps (remove_at (k mod List.length pending) pending) (r :: acc) s
       in ((t ++ t')%list, s', o)).
Proof.
  intros Hp. destruct (nth_error_mod k Hp) as [job Hj].
  destruct (in_worker_run W job s) as (t & r & E & Hr & Ht & Hu).
  exists job, t, r. repeat split; auto.
  destruct pending as [|p pending]; [congruence|].
  cbn [drain]. rewrite Hj. unfold bind. rewrite E. reflexivity.
Qed.

Ltac drain_induction steps IH pending acc s :=
  induction steps as [|[k| |msg] steps IH]; intros pending acc s;
  [ destruct pending; try reflexivity; try exact I
  | destruct pending as [|p pending]; [try reflexivity; try exact I|]
  | destruct pending; try reflexivity; try exact I
  | destruct pending; try reflexivity; try exact I ].

Lemma drain_locals steps : forall pending acc (s : St),
  locals_of (drain W steps pending acc s) = s.
Proof.
  drain_induction steps IH pending acc s.
  destruct (@drain_step_finish k steps (p :: pending) acc s)
    as (job & t & r & _ & _ & _ & _ & E); [congruence|].
  rewrite E.
  specialize (IH (remove_at (k mod List.length (p :: pending)) (p :: pending)) (r :: acc) s).
  destruct (drain W steps _ _ s) as [[t' s'] o]. exact IH.
Qed.

Lemma drain_events steps : forall pending acc (s : St),
  worker_events (trace_of (drain W steps pending acc s)) = true.
Proof.
  drain_induction steps IH pending acc s.
  destruct (@drain_step_finish k steps (p :: pending) acc s)
    as (job & t & r & _ & _ & Ht & _ & E); [congruence|].
  rewrite E.
  specialize (IH (remove_at (k mod List.length (p :: pending)) (p :: pending)) (r :: acc) s).
  destruct (drain W steps _ _ s) as [[t' s'] o]. unfold trace_of in *; cbn [fst snd] in *.
  rewrite worker_events_app, Ht, IH. reflexivity.
Qed.

(** The iteration ends in a list, an interruption or an [Exception]. *)
Lemma drain_outcome steps : forall pending acc (s : St),
  match outcome_of (drain W steps pending acc s) with
  | Raised (SystemExit _) => False
  | _ => True
  end.
Proof.
  drain_induction steps IH pending acc s.
  destruct (@drain_step_finish k steps (p :: pending) acc s)
    as (job & t & r & _ & _ & _ & _ & E); [congruence|].
  rewrite E.
  specialize (IH (remove_at (k mod List.length (p :: pending)) (p :: pending)) (r :: acc) s).
  destruct (drain W steps _ _ s) as [[t' s'] o]. exact IH.
Qed.

(** Without interruption or crash, every pending request is answered
    exactly once. *)
Lemma drain_clean steps : forall pending acc (s : St),
  forallb is_finish steps = true ->
  List.length pending <= List.length steps ->
  exists jobs results t,
    Permutation jobs pending /\ Forall2 (ran W) jobs results /\
    map result_url results = map (fun job => url_of (snd job)) jobs /\
    drain W steps pending acc s = (t, s, Returned (rev acc ++ results)%list).
Proof.
  induction steps as [|st steps IH]; intros pending acc s Hc Hl.
  - destruct pending; [|cbn in Hl; lia].
    exists [], [], []. cbn. rewrite app_nil_r. repeat split; constructor.
  - destruct pending as [|p pending].
    { exists [], [], []. destruct st; cbn; rewrite app_nil_r; repeat split; constructor. }
    destruct st as [k| |msg]; try discriminate Hc.
    destruct (@drain_step_finish k steps (p :: pending) acc s)
      as (job & t & r & Hj & Hr & _ & Hu & E); [congruence|].
    rewrite E.
    pose proof (@remove_at_length _ _ _ _ Hj) as Hlen.
    set (rest := remove_at (k mod List.length (p :: pending)) (p :: pending)) in *.
    destruct (IH rest (r :: acc) s) as (jobs & results & t' & Hp & Hf & Hm & Ed).
    { exact Hc. }
    { change (List.length (Finish k :: steps)) with (Datatypes.S (List.length steps)) in Hl.
      lia. }
    rewrite Ed. exists (job :: jobs), (r :: results), (t ++ t')%list.
    repeat split.
    + rewrite <- (@remove_at_perm _ _ _ _ Hj). constructor. exact Hp.
    + constructor; auto.
    + cbn. congruence.
    + cbn. rewrite <- app_assoc. reflexivity.
Qed.

(** An interruption before the last request has finished ends the
    iteration with [KeyboardInterrupt], whatever had been collected. *)
Lemma drain_interrupted ks : forall rest pending acc (s : St),
  List.length ks < List.length pending ->
  outcome_of (drain W (map Finish ks ++ Interrupt :: rest) pending acc s)
  = Raised KeyboardInterrupt.
Proof.
  induction ks as [|k ks IH]; intros rest pending acc s Hl.
  - destruct pending; [cbn in Hl; lia|reflexivity].
  - destruct pending as [|p pending]; [cbn in Hl; lia|].
    cbn [map app].
    destruct (@drain_step_finish k (map Finish ks ++ Interrupt :: rest) (p :: pending) acc s)
      as (job & t & r & Hj & _ & _ & _ & E); [congruence|].
    rewrite E.
    pose proof (@remove_at_length _ _ _ _ Hj) as Hlen.
    set (left := remove_at (k mod List.length (p :: pending)) (p :: pending)) in *.
    specialize (IH rest left (r :: acc) s).
    destruct (drain W _ left _ s) as [[t' s'] o]. apply IH.
    change (List.length (k :: ks)) with (Datatypes.S (List.length ks)) in Hl. lia.
Qed.

End Drain.

(** ** The orchestrator *)

Lemma for_each_log St (A : Type) (f : A -> Event) (l : list A) (s : St) :
  for_each l (fun x => emit (f x)) s = (map f l, s, Returned tt).
Proof.
  induction l as [|x l IH]; cbn; [reflexivity|].
  unfold bind, emit in *. rewrite IH. reflexivity.
Qed.

Lemma print_summary_run abs c :
  print_summary abs c = (summary_block abs c, c, Returned tt).
Proof.
  unfold print_summary, summary_block, log. unfold bind at 1 2 3 4 5 6. unfold get, emit.
  cbn -[String.append for_each].
  destruct (failed_urls c) as [|f fs] eqn:E; cbn -[String.append for_each map].
  - reflexivity.
  - unfold bind, emit.
    change (fun f0 : string * option string =>
              (fun s : Counters =>
                 ([Log WARNING ("  - " ++ fst f0 ++ " (Reason: " ++ reason_str (snd f0) ++ ")")],
                  s, Returned tt)))
      with (fun f0 : string * option string => @emit Counters (failure_line f0)).
    rewrite for_each_log. reflexivity.
Qed.

Lemma count_loop results : forall c,
  for_each results count_result c = ([], fold_left count_step results c, Returned tt).
Proof.
  induction results as [|[[url ok] msg] results IH]; intros c; cbn; [reflexivity|].
  unfold bind, get, put. destruct ok; cbn; rewrite IH; reflexivity.
Qed.

(** Every run of [main], by what [os.makedirs] and the pool do. *)
Lemma main_run W urls quality output_dir processes cookie quiet_ydl s :
  main W urls quality output_dir processes cookie quiet_ydl s =
  let abs := os_abspath W output_dir in
  let head := (main_header W urls quality output_dir processes cookie ++ [Makedirs abs])%list in
  let zero := mkCounters 0 0 [] in
  let download_args := requests urls quality output_dir cookie quiet_ydl in
  match os_makedirs W abs with
  | Err e =>
      if is_OSError e
      then ((head ++ [Log ERROR ("Failed to create output directory '" ++ abs ++ "': "
                                 ++ str_exc e)])%list,
            s, Returned tt)
      else (head, s, Raised (Exc e))
  | Ok _ =>
      if (processes <? 1)%Z then
        let e := ValueError "Number of processes must be at least 1" in
        ((head ++ ensured W output_dir
          ++ [ Log ERROR ("An critical error occurred during multiprocessing: " ++ str_exc e);
               Log DEBUG (traceback_format_exc W e) ]
          ++ summary_block abs zero)%list, zero, Returned tt)
      else
        let d := drain W (schedule W ++ repeat (Finish 0) (List.length download_args))%list
                       (number download_args) [] zero in
        let pre := (head ++ ensured W output_dir
                    ++ PoolStart processes :: Dispatch download_args :: trace_of d)%list in
        match outcome_of d with
        | Returned results =>
            ((pre ++ summary_block abs (tally results))%list, tally results, Returned tt)
        | Raised KeyboardInterrupt =>
            ((pre ++ Log WARNING (LF ++ "Download interrupted by user.")
                  :: summary_block abs zero)%list, zero, Returned tt)
        | Raised (Exc e) =>
            ((pre ++ [ Log ERROR ("An critical error occurred during multiprocessing: "
                                  ++ str_exc e);
                       Log DEBUG (traceback_format_exc W e) ]
                  ++ summary_block abs zero)%list, zero, Returned tt)
        | Raised (SystemExit code) =>
            ((pre ++ summary_block abs zero)%list, zero, Raised (SystemExit code))
        end
  end.
Proof.
  unfold main, main_header, ensured, imap_unordered_list, Pool, requests.
  unfold with_, try_finally, try_except, bind, call, log, emit, put, ret, raise, when.
  cbn -[String.append drain summary_block print_summary].
  destruct (opt_truthy cookie); cbn -[String.append drain summary_block print_summary];
  (destruct (os_makedirs W (os_abspath W output_dir)) as [[]|e];
   cbn -[String.append drain summary_block print_summary]; [|destruct e; reflexivity]);
  (destruct (output_dir =? "."); cbn -[String.append drain summary_block print_summary];
   (destruct (processes <? 1)%Z; cbn -[String.append drain summary_block print_summary];
    [rewrite print_summary_run; reflexivity|])).
  all: set (steps := (schedule W ++ _)%list);
       set (jobs := number _);
       pose proof (drain_locals W steps jobs [] (mkCounters 0 0 [])) as Hl;
       destruct (drain W steps jobs [] (mkCounters 0 0 [])) as [[t c0] o];
       unfold locals_of, trace_of, outcome_of in *; cbn [fst snd] in *; subst c0;
       destruct o as [results|[e| |code]]; cbn -[String.append summary_block print_summary].
  all: try rewrite count_loop; cbn -[String.append summary_block print_summary];
       rewrite print_summary_run; unfold tally;
       repeat rewrite <- app_assoc; cbn -[String.append summary_block print_summary];
       try reflexivity.
Qed.

Lemma main_header_log_only W urls quality output_dir processes cookie :
  log_only (main_header W urls quality output_dir processes cookie) = true.
Proof. unfold main_header. destruct (opt_truthy cookie); reflexivity. Qed.

Lemma summary_block_log_only abs c : log_only (summary_block abs c) = true.
Proof.
  unfold summary_block. cbn -[String.append]. rewrite log_only_app.
  destruct (failed_urls c) as [|f fs]; [reflexivity|].
  cbn -[String.append]. rewrite Bool.andb_true_r.
  induction fs as [|g fs IH]; [reflexivity|exact IH].
Qed.

Lemma ensured_log_only W output_dir : log_only (ensured W output_dir) = true.
Proof. unfold ensured. destruct (output_dir =? "."); reflexivity. Qed.

Lemma number_length A (l : list A) : List.length (number l) = List.length l.
Proof.
  unfold number. rewrite length_combine, length_seq. apply Nat.min_id.
Qed.

Lemma number_snd A (l : list A) : map snd (number l) = l.
Proof.
  unfold number. generalize 0.
  induction l as [|x l IH]; intros n; cbn; [reflexivity|]. rewrite IH. reflexivity.
Qed.

Lemma requests_urls urls quality output_dir cookie quiet_ydl :
  map url_of (requests urls quality output_dir cookie quiet_ydl) = urls.
Proof.
  unfold requests. rewrite map_map. cbn. apply map_id.
Qed.

Lemma requests_length urls quality output_dir cookie quiet_ydl :
  List.length (requests urls quality output_dir cookie quiet_ydl) = List.length urls.
Proof. unfold requests. apply length_map. Qed.

Lemma count_totals results : forall c,
  let c' := fold_left count_step results c in
  success_count c' = success_count c + List.length (filter succeeded results) /\
  fail_count c' = fail_count c + List.length (filter (fun r => negb (succeeded r)) results).
Proof.
  induction results as [|[[url ok] msg] results IH]; intros c; cbn.
  - split; lia.
  - destruct (IH (count_step c (url, ok, msg))) as [Hs Hf].
    cbn in Hs, Hf. rewrite Hs, Hf. destruct ok; cbn; split; lia.
Qed.

Lemma filter_split_length A (f : A -> bool) (l : list A) :
  List.length (filter f l) + List.length (filter (fun x => negb (f x)) l) = List.length l.
Proof.
  induction l as [|x l IH]; [reflexivity|].
  cbn. destruct (f x); cbn; lia.
Qed.

(** C1 (as amended): when the output directory is created, the pool comes
    up and the collection is neither interrupted nor stopped by an error
    of the pool, the orchestrator collects exactly one result per request
    (the results answer a rearrangement of the requests, one each, and
    their URLs are a rearrangement of the input URLs), and the summary it
    prints counts succeeded + failed = number of input URLs. *)
Theorem main_collects_every_result (W : World) (urls : list string)
  (quality output_dir : string) (processes : Z) (cookie : option string)
  (quiet_ydl : bool) (s : Counters) :
  os_makedirs W (os_abspath W output_dir) = Ok tt ->
  (1 <= processes)%Z ->
  forallb is_finish (schedule W) = true ->
  exists jobs results pre,
    Permutation jobs (number (requests urls quality output_dir cookie quiet_ydl)) /\
    Forall2 (ran W) jobs results /\
    Permutation (map result_url results) urls /\
    List.length results = List.length urls /\
    main W urls quality output_dir processes cookie quiet_ydl s =
      ((pre ++ summary_block (os_abspath W output_dir) (tally results))%list,
       tally results, Returned tt) /\
    success_count (tally results) = List.length (filter succeeded results) /\
    fail_count (tally results)
      = List.length (filter (fun r => negb (succeeded r)) results) /\
    success_count (tally results) + fail_count (tally results) = List.length urls.
Proof.
  intros Hmk Hp Hs.
  rewrite main_run. cbv zeta. rewrite Hmk.
  replace (processes <? 1)%Z with false by (symmetry; apply Z.ltb_ge; lia).
  set (download_args := requests urls quality output_dir cookie quiet_ydl).
  destruct (@drain_clean Counters W
              (schedule W ++ repeat (Finish 0) (List.length download_args))%list
              (number download_args) [] (mkCounters 0 0 []))
    as (jobs & results & t & Hperm & Hran & Hurl & Ed).
  { rewrite forallb_app, Hs. cbn. clear. induction (List.length download_args); auto. }
  { rewrite number_length, length_app, repeat_length. lia. }
  rewrite Ed. unfold outcome_of, trace_of. cbn [fst snd rev app].
  assert (Hu : Permutation (map result_url results) urls).
  { rewrite Hurl.
    apply Permutation_trans with (map (fun job => url_of (snd job)) (number download_args)).
    - apply Permutation_map. exact Hperm.
    - rewrite <- map_map, number_snd. unfold download_args.
      rewrite requests_urls. reflexivity. }
  assert (Hlen : List.length results = List.length urls).
  { rewrite <- (Permutation_length Hu). symmetry. apply length_map. }
  destruct (count_totals results (mkCounters 0 0 [])) as [Hsc Hfc]. cbn in Hsc, Hfc.
  exists jobs, results. eexists. repeat split; try eassumption.
  - unfold tally. rewrite Hsc, Hfc, filter_split_length. exact Hlen.
Qed.

(** C1, as stated, fails: the directory is created and nobody interrupts,
    yet no result is collected and the summary counts 0 + 0 for three
    URLs, once when [main] is given a worker count the pool rejects and
    once when the pool fails while results are collected. *)
Lemma pool_failure_loses_every_result :
  (let W := Ex.world [] None in
   let r := main W Ex.urls "720" "out" 0 None false unassigned in
   os_makedirs W (os_abspath W "out") = Ok tt /\
   existsb is_interrupt (schedule W) = false /\
   outcome_of r = Returned tt /\
   logged INFO "Successfully downloaded: 0 video(s)" (trace_of r) = true /\
   logged INFO "Failed to download: 0 video(s)" (trace_of r) = true /\
   success_count (locals_of r) + fail_count (locals_of r) <> List.length Ex.urls) /\
  (let W := Ex.world [Finish 0; Crash "[Errno 12] Cannot allocate memory"] None in
   let r := main W Ex.urls "720" "out" 2 None false unassigned in
   os_makedirs W (os_abspath W "out") = Ok tt /\
   existsb is_interrupt (schedule W) = false /\
   outcome_of r = Returned tt /\
   logged INFO "Successfully downloaded: 0 video(s)" (trace_of r) = true /\
   logged INFO "Failed to download: 0 video(s)" (trace_of r) = true /\
   success_count (locals_of r) + fail_count (locals_of r) <> List.length Ex.urls).
Proof.
  split; vm_compute; repeat split; discriminate.
Qed.

(** C3 (as amended): [main] resolves the output directory to an absolute
    path and calls [os.makedirs] on it before the pool or the engine is
    touched (only log lines come earlier).  When the creation fails, no
    pool is started, nothing is dispatched and no download is attempted:
    for an [OSError] the run is the header, the creation attempt and one
    error line, and [main] returns; any other exception leaves [main]
    right after the creation attempt, with no error line. *)
Theorem output_directory_comes_first (W : World) (urls : list string)
  (quality output_dir : string) (processes : Z) (cookie : option string)
  (quiet_ydl : bool) (s : Counters) :
  let abs := os_abspath W output_dir in
  let r := main W urls quality output_dir processes cookie quiet_ydl s in
  exists pre post,
    trace_of r = (pre ++ Makedirs abs :: post)%list /\
    log_only pre = true /\
    logged_at ERROR pre = false /\
    match os_makedirs W abs with
    | Err e =>
        no_work (trace_of r) = true /\
        pool_starts (trace_of r) = [] /\
        dispatched (trace_of r) = [] /\
        opened (trace_of r) = [] /\
        downloads (trace_of r) = [] /\
        if is_OSError e
        then post = [Log ERROR ("Failed to create output directory '" ++ abs ++ "': "
                                ++ str_exc e)]
             /\ outcome_of r = Returned tt
        else post = [] /\ outcome_of r = Raised (Exc e)
    | Ok _ => True
    end.
Proof.
  cbv zeta. rewrite main_run. cbv zeta.
  pose proof (main_header_log_only W urls quality output_dir processes cookie) as Hh.
  exists (main_header W urls quality output_dir processes cookie).
  assert (He : logged_at ERROR (main_header W urls quality output_dir processes cookie)
               = false)
    by (unfold main_header; destruct (opt_truthy cookie); reflexivity).
  destruct (os_makedirs W (os_abspath W output_dir)) as [[]|e].
  - destruct (processes <? 1)%Z.
    + eexists. unfold trace_of. cbn [fst snd]. rewrite <- !app_assoc. cbn [app]. auto.
    + destruct (outcome_of _) as [results|[e| |code]]; eexists; unfold trace_of at 1;
        cbn [fst snd]; rewrite <- !app_assoc; cbn [app]; auto.
  - assert (Hq : forall post,
               log_only post = true ->
               let t := ((main_header W urls quality output_dir processes cookie
                          ++ [Makedirs (os_abspath W output_dir)]) ++ post)%list in
               no_work t = true /\ pool_starts t = [] /\ dispatched t = []
               /\ opened t = [] /\ downloads t = []).
    { intros post Hp. cbv zeta.
      pose proof (log_only_worker_events _ Hh) as Hw.
      pose proof (log_only_worker_events _ Hp) as Hw'.
      rewrite !no_work_app, !pool_starts_app, !dispatched_app, !opened_app, !downloads_app.
      rewrite (log_only_no_work _ Hh), (log_only_no_work _ Hp),
        (worker_events_pool_starts _ Hw), (worker_events_pool_starts _ Hw'),
        (worker_events_dispatched _ Hw), (worker_events_dispatched _ Hw'),
        (log_only_opened _ Hh), (log_only_opened _ Hp),
        (log_only_downloads _ Hh), (log_only_downloads _ Hp).
      repeat split. }
    destruct (is_OSError e).
    + eexists. unfold trace_of, outcome_of. cbn [fst snd].
      split; [rewrite <- !app_assoc; cbn [app]; reflexivity|].
      split; [exact Hh|]. split; [exact He|].
      destruct (Hq [Log ERROR ("Failed to create output directory '"
                               ++ os_abspath W output_dir ++ "': " ++ str_exc e)] eq_refl)
        as (H1 & H2 & H3 & H4 & H5).
      repeat split; assumption.
    + exists []. unfold trace_of, outcome_of. cbn [fst snd].
      split; [reflexivity|]. split; [exact Hh|]. split; [exact He|].
      destruct (Hq [] eq_refl) as (H1 & H2 & H3 & H4 & H5).
      rewrite app_nil_r in H1, H2, H3, H4, H5.
      repeat split; assumption.
Qed.

(** C3, as stated, fails: for an output directory with a NUL byte in its
    name [os.makedirs] raises [ValueError], which the handler for
    [OSError] does not catch: nothing is logged at error level and [main]
    does not return but raises. *)
Lemma directory_error_can_leave_main :
  let W := Ex.refusing (ValueError "embedded null byte") in
  let r := main W Ex.urls "720" Ex.nul_dir 2 None false unassigned in
  os_makedirs W (os_abspath W Ex.nul_dir) = Err (ValueError "embedded null byte") /\
  logged_at ERROR (trace_of r) = false /\
  outcome_of r = Raised (Exc (ValueError "embedded null byte")) /\
  dispatched (trace_of r) = [].
Proof.
  vm_compute. repeat split.
Qed.

(** What an interruption during the collection leaves of the results:
    nothing, however many workers had finished. *)
Lemma main_interrupted_counts_nothing W urls quality output_dir processes cookie quiet_ydl
  s ks rest :
  os_makedirs W (os_abspath W output_dir) = Ok tt ->
  (1 <= processes)%Z ->
  schedule W = (map Finish ks ++ Interrupt :: rest)%list ->
  List.length ks < List.length urls ->
  let r := main W urls quality output_dir processes cookie quiet_ydl s in
  locals_of r = mkCounters 0 0 [] /\
  exists pre,
    trace_of r = (pre ++ Log WARNING (LF ++ "Download interrupted by user.")
                      :: summary_block (os_abspath W output_dir) (mkCounters 0 0 []))%list.
Proof.
  intros Hmk Hp Hs Hl. cbv zeta.
  rewrite main_run. cbv zeta. rewrite Hmk.
  replace (processes <? 1)%Z with false by (symmetry; apply Z.ltb_ge; lia).
  rewrite Hs, <- app_assoc. cbn [app].
  rewrite drain_interrupted by (rewrite number_length, requests_length; exact Hl).
  split; [reflexivity|]. eexists. reflexivity.
Qed.

(** C4 at a concrete run: three URLs, two workers have handed back their
    results (one success, one download error) when the interruption
    arrives; the summary is printed and reports 0 succeeded, 0 failed. *)
Theorem interrupted_summary_counts_nothing :
  let W := Ex.world [Finish 0; Finish 0; Interrupt] None in
  let r := main W Ex.urls "720" "out" 2 None false unassigned in
  ran W (0, ("https://a", "720", "out", None, false)) ("https://a", true, None) /\
  ran W (1, ("https://b", "720", "out", None, false))
        ("https://b", false, Some "ERROR: Video unavailable") /\
  logged INFO "Finished: 'title of https://a' (https://a)" (trace_of r) = true /\
  logged ERROR
    "yt-dlp error downloading 'title of https://b' (https://b): ERROR: Video unavailable"
    (trace_of r) = true /\
  logged WARNING (LF ++ "Download interrupted by user.") (trace_of r) = true /\
  logged INFO "Successfully downloaded: 0 video(s)" (trace_of r) = true /\
  logged INFO "Failed to download: 0 video(s)" (trace_of r) = true /\
  locals_of r = mkCounters 0 0 [] /\
  outcome_of r = Returned tt.
Proof.
  vm_compute. repeat split.
Qed.

(** ** Lines of the URL file *)

Lemma lstrip_cases s :
  (all_space s = true /\ Str.lstrip s = EmptyString) \/
  (all_space s = false /\ exists c r, Str.lstrip s = String c r /\ Str.isspace c = false).
Proof.
  induction s as [|c s IH]; [left; split; reflexivity|].
  cbn [all_space Str.lstrip].
  destruct (Str.isspace c) eqn:Ec; cbn [andb].
  - exact IH.
  - right. split; [reflexivity|]. exists c, s. auto.
Qed.

Lemma rstrip_keeps_head c r :
  Str.isspace c = false -> exists r', Str.rstrip (String c r) = String c r'.
Proof.
  intros Hc. cbn [Str.rstrip]. destruct (Str.rstrip r); [rewrite Hc|]; eauto.
Qed.

Lemma strip_truthy s : Str.truthy (Str.strip s) = negb (all_space s).
Proof.
  unfold Str.strip.
  destruct (lstrip_cases s) as [[Ha El]|[Ha (c & r & El & Hc)]]; rewrite Ha, El.
  - reflexivity.
  - destruct (@rstrip_keeps_head c r Hc) as [r' Er]. rewrite Er. reflexivity.
Qed.

Lemma startswith_hash s : Str.startswith s "#" = begins_with_hash s.
Proof.
  destruct s as [|c s]; [reflexivity|].
  unfold Str.startswith. cbn [prefix begins_with_hash].
  destruct (ascii_dec "#" c) as [<-|Hn].
  - destruct s; reflexivity.
  - symmetry. apply Ascii.eqb_neq. congruence.
Qed.

Lemma keeps_line line :
  Str.truthy (Str.strip line) && negb (Str.startswith line "#")
  = negb (all_space line || begins_with_hash line).
Proof.
  rewrite strip_truthy, startswith_hash, Bool.negb_orb. reflexivity.
Qed.

Lemma urls_of_lines_cons line lines :
  urls_of_lines (line :: lines) =
  if all_space line || begins_with_hash line
  then urls_of_lines lines
  else Str.strip line :: urls_of_lines lines.
Proof.
  unfold urls_of_lines. cbn [filter]. rewrite keeps_line.
  destruct (all_space line || begins_with_hash line); reflexivity.
Qed.


Lemma urls_of_lines_spec lines : urls_of_lines lines = spec_url_list lines.
Proof.
  induction lines as [|line lines IH]; [reflexivity|].
  rewrite urls_of_lines_cons. cbn [spec_url_list]. rewrite IH. reflexivity.
Qed.

Lemma urls_of_lines_perm_length lines lines' :
  Permutation lines lines' ->
  List.length (urls_of_lines lines) = List.length (urls_of_lines lines').
Proof.
  intros Hp. unfold urls_of_lines. rewrite !length_map.
  apply Permutation_length.
  induction Hp as [|x l l' Hp IH|x y l|l l' l'' H1 IH1 H2 IH2]; cbn.
  - constructor.
  - destruct (_ && _); [constructor|]; exact IH.
  - destruct (_ && _), (_ && _); try reflexivity. apply perm_swap.
  - eapply Permutation_trans; eassumption.
Qed.

(** ** The script *)

Lemma load_urls_run W args s :
  exists t,
    (load_urls W args s = (t, s, Raised (SystemExit 1))
     \/ exists urls, load_urls W args s = (t, s, Returned urls)) /\
    log_only t = true /\ logged INFO summary_header t = false.
Proof.
  assert (Hret : forall urls : list string,
             exists t,
               (@ret Counters _ urls s = (t, s, Raised (SystemExit 1))
                \/ exists urls', @ret Counters _ urls s = (t, s, Returned urls')) /\
               log_only t = true /\ logged INFO summary_header t = false).
  { intros urls. exists []. split; [right; eexists; reflexivity|split; reflexivity]. }
  unfold load_urls.
  destruct (args_urls args) as [[|u us]|]; try apply Hret;
    (destruct (opt_truthy (args_file args)); [|apply Hret]);
    unfold load_file, exit; unfold_py;
    (destruct (open_lines W _) as [lines|e]; cbn -[String.append];
     [ destruct (urls_of_lines lines); cbn -[String.append]
     | destruct e; cbn -[String.append] ]);
    eexists;
    (split; [first [left; reflexivity | right; eexists; reflexivity]|split; reflexivity]).
Qed.

Lemma resolve_processes_run W args s :
  resolve_processes W args s = (processes_warning W args, s, Returned (effective_processes W args)).
Proof.
  unfold resolve_processes, processes_warning, effective_processes. unfold_py.
  destruct (args_processes args <=? 0)%Z; reflexivity.
Qed.

Lemma resolve_cookie_run W args s :
  resolve_cookie W args s = (cookie_warning W args, s, Returned (cookie_path W args)).
Proof.
  unfold resolve_cookie, cookie_warning, cookie_path. unfold_py.
  destruct (opt_truthy (args_cookiefile args)); [|reflexivity].
  destruct (os_exists W _); reflexivity.
Qed.

(** The script is its preamble followed by [main]. *)
Lemma script_run W args :
  run W args =
  match load_urls W args unassigned with
  | (t, s, Returned urls) =>
      let m := main W urls (args_quality args) (args_output args)
                    (effective_processes W args) (cookie_path W args)
                    (args_quiet_ydl args) s in
      ((verbose_line args ++ t ++ processes_warning W args ++ cookie_warning W args
        ++ trace_of m)%list, locals_of m, outcome_of m)
  | (t, s, Raised e) => ((verbose_line args ++ t)%list, s, Raised e)
  end.
Proof.
  unfold run, script, verbose_line.
  unfold bind at 1. unfold when, log, emit, ret.
  destruct (args_verbose args); cbn [app];
    (unfold bind at 1; destruct (load_urls W args unassigned) as [[t s] [urls|e]];
     [|reflexivity]);
    (unfold bind at 1; rewrite resolve_processes_run;
     unfold bind at 1; rewrite resolve_cookie_run;
     destruct (main W urls _ _ _ _ _ s) as [[tm cm] om];
     unfold trace_of, locals_of, outcome_of; cbn [fst snd app];
     rewrite <- ?app_assoc; reflexivity).
Qed.

Lemma preamble_log_only W args :
  log_only (verbose_line args) = true /\ log_only (processes_warning W args) = true
  /\ log_only (cookie_warning W args) = true.
Proof.
  unfold verbose_line, processes_warning, cookie_warning.
  destruct (args_verbose args), (args_processes args <=? 0)%Z, (cookie_path W args) as [p|];
    try destruct (os_exists W p); repeat split.
Qed.


Lemma effective_processes_pos W args : (0 < effective_processes W args)%Z.
Proof.
  unfold effective_processes, DEFAULT_PROCESSES.
  destruct (args_processes args <=? 0)%Z eqn:E; [lia|].
  apply Z.leb_gt in E. exact E.
Qed.

(** What [main] hands to the pool. *)
Lemma main_dispatched W urls quality output_dir processes cookie quiet_ydl s :
  let t := trace_of (main W urls quality output_dir processes cookie quiet_ydl s) in
  (1 <= processes)%Z ->
  match os_makedirs W (os_abspath W output_dir) with
  | Err _ => dispatched t = [] /\ pool_starts t = []
  | Ok _ => dispatched t = [requests urls quality output_dir cookie quiet_ydl]
            /\ pool_starts t = [processes]
  end.
Proof.
  cbv zeta. intros Hp. rewrite main_run. cbv zeta.
  pose proof (log_only_worker_events _
                (main_header_log_only W urls quality output_dir processes cookie)) as Hh.
  pose proof (log_only_worker_events _ (ensured_log_only W output_dir)) as He.
  destruct (os_makedirs W (os_abspath W output_dir)) as [[]|e0];
    [|destruct (is_OSError e0); unfold trace_of; cbn [fst snd];
      rewrite ?dispatched_app, ?pool_starts_app, ?dispatched_app, ?pool_starts_app,
        (worker_events_dispatched _ Hh), (worker_events_pool_starts _ Hh);
      split; reflexivity].
  - replace (processes <? 1)%Z with false by (symmetry; apply Z.ltb_ge; lia).
    set (d := drain W _ _ _ _).
    pose proof (drain_events W (schedule W ++ repeat (Finish 0)
                  (List.length (requests urls quality output_dir cookie quiet_ydl)))%list
                  (number (requests urls quality output_dir cookie quiet_ydl)) []
                  (mkCounters 0 0 [])) as Hd.
    fold d in Hd.
    assert (Hs : forall c, worker_events (summary_block (os_abspath W output_dir) c) = true)
      by (intros c; apply log_only_worker_events, summary_block_log_only).
    destruct (outcome_of d) as [results|[e| |code]]; unfold trace_of at 1 3; cbn [fst snd];
      repeat (rewrite ?dispatched_app, ?pool_starts_app; cbn [dispatched pool_starts app]);
      rewrite ?(worker_events_dispatched _ Hh), ?(worker_events_pool_starts _ Hh),
        ?(worker_events_dispatched _ He), ?(worker_events_pool_starts _ He),
        ?(worker_events_dispatched _ Hd), ?(worker_events_pool_starts _ Hd),
        ?(worker_events_dispatched _ (Hs _)), ?(worker_events_pool_starts _ (Hs _));
      split; reflexivity.
Qed.


Lemma load_file_run W file s :
  let file_path := os_abspath W file in
  load_file W file s =
  match open_lines W file_path with
  | Ok lines =>
      match urls_of_lines lines with
      | [] => ([Log ERROR ("No valid URLs found in file: " ++ file_path)], s,
               Raised (SystemExit 1))
      | u :: us =>
          ([Log INFO ("Loaded " ++ Str.of_nat (List.length (u :: us)) ++ " URLs from "
                      ++ file_path)], s, Returned (u :: us))
      end
  | Err (FileNotFoundError _) =>
      ([Log ERROR ("URL file not found: " ++ file_path)], s, Raised (SystemExit 1))
  | Err e =>
      ([Log ERROR ("Error reading URL file '" ++ file_path ++ "': " ++ str_exc e)], s,
       Raised (SystemExit 1))
  end.
Proof.
  cbv zeta. unfold load_file, exit. unfold_py.
  destruct (open_lines W _) as [lines|e]; cbn -[String.append List.length].
  - destruct (urls_of_lines lines); reflexivity.
  - destruct e; reflexivity.
Qed.


(** Once the directory exists, [main] returns after printing the summary,
    whatever the pool does. *)
Lemma main_summary W urls quality output_dir processes cookie quiet_ydl s :
  os_makedirs W (os_abspath W output_dir) = Ok tt ->
  exists pre c,
    main W urls quality output_dir processes cookie quiet_ydl s =
    ((pre ++ summary_block (os_abspath W output_dir) c)%list, c, Returned tt).
Proof.
  intros Hmk. rewrite main_run. cbv zeta. rewrite Hmk.
  destruct (processes <? 1)%Z.
  - do 2 eexists. rewrite !app_assoc. reflexivity.
  - set (d := drain W _ _ _ _).
    pose proof (drain_outcome W (schedule W ++ repeat (Finish 0)
                  (List.length (requests urls quality output_dir cookie quiet_ydl)))%list
                  (number (requests urls quality output_dir cookie quiet_ydl)) []
                  (mkCounters 0 0 [])) as Hd.
    fold d in Hd.
    destruct (outcome_of d) as [results|[e| |code]]; try contradiction.
    + do 2 eexists. reflexivity.
    + do 2 eexists. rewrite !app_assoc. reflexivity.
    + do 2 eexists.
      change (Log WARNING (LF ++ "Download interrupted by user.")
              :: summary_block (os_abspath W output_dir) (mkCounters 0 0 []))
        with ([Log WARNING (LF ++ "Download interrupted by user.")]
              ++ summary_block (os_abspath W output_dir) (mkCounters 0 0 []))%list.
      rewrite !app_assoc. reflexivity.
Qed.



Lemma run_dispatched W args urls t s :
  load_urls W args unassigned = (t, s, Returned urls) ->
  Forall (fun reqs => reqs = requests urls (args_quality args) (args_output args)
                                      (cookie_path W args) (args_quiet_ydl args))
         (dispatched (trace_of (run W args)))
  /\ Forall (fun p => p = effective_processes W args) (pool_starts (trace_of (run W args)))
  /\ (os_makedirs W (os_abspath W (args_output args)) = Ok tt ->
      dispatched (trace_of (run W args))
      = [requests urls (args_quality args) (args_output args)
                  (cookie_path W args) (args_quiet_ydl args)]).
Proof.
  intros E. rewrite script_run, E. cbv zeta. unfold trace_of at 1 3 5. cbn [fst snd].
  destruct (preamble_log_only W args) as (Lv & Lp & Lc).
  destruct (load_urls_run W args unassigned) as (t' & Hc & Lt & _).
  assert (t' = t) as -> by (destruct Hc as [H|[u H]]; rewrite E in H; congruence).
  assert (Hw : forall x, log_only x = true -> dispatched x = [] /\ pool_starts x = []).
  { intros x Hx. apply log_only_worker_events in Hx.
    split; [apply worker_events_dispatched|apply worker_events_pool_starts]; exact Hx. }
  rewrite !dispatched_app, !pool_starts_app.
  rewrite (proj1 (Hw _ Lv)), (proj1 (Hw _ Lt)), (proj1 (Hw _ Lp)), (proj1 (Hw _ Lc)).
  rewrite (proj2 (Hw _ Lv)), (proj2 (Hw _ Lt)), (proj2 (Hw _ Lp)), (proj2 (Hw _ Lc)).
  cbn [app].
  assert (Hp : (1 <= effective_processes W args)%Z)
    by (pose proof (effective_processes_pos W args); lia).
  pose proof (main_dispatched W urls (args_quality args) (args_output args)
                (cookie_path W args) (args_quiet_ydl args) s Hp) as Hm.
  cbv zeta in Hm.
  destruct (os_makedirs W (os_abspath W (args_output args))) as [[]|e0];
    destruct Hm as [Hd Hs]; rewrite Hd, Hs.
  - repeat split; repeat constructor.
  - repeat split; try constructor. discriminate.
Qed.

(** What a run hands to the pool, once the URLs are loaded. *)
Lemma run_starts W args urls t s :
  load_urls W args unassigned = (t, s, Returned urls) ->
  dispatched (trace_of (run W args))
  = match os_makedirs W (os_abspath W (args_output args)) with
    | Ok _ => [requests urls (args_quality args) (args_output args)
                        (cookie_path W args) (args_quiet_ydl args)]
    | Err _ => []
    end /\
  pool_starts (trace_of (run W args))
  = match os_makedirs W (os_abspath W (args_output args)) with
    | Ok _ => [effective_processes W args]
    | Err _ => []
    end.
Proof.
  intros E. rewrite script_run, E. cbv zeta. unfold trace_of at 1 3. cbn [fst snd].
  destruct (preamble_log_only W args) as (Lv & Lp & Lc).
  destruct (load_urls_run W args unassigned) as (t' & Hc & Lt & _).
  assert (t' = t) as -> by (destruct Hc as [H|[u H]]; rewrite E in H; congruence).
  assert (Hw : forall x, log_only x = true -> dispatched x = [] /\ pool_starts x = []).
  { intros x Hx. apply log_only_worker_events in Hx.
    split; [apply worker_events_dispatched|apply worker_events_pool_starts]; exact Hx. }
  rewrite !dispatched_app, !pool_starts_app.
  rewrite (proj1 (Hw _ Lv)), (proj1 (Hw _ Lt)), (proj1 (Hw _ Lp)), (proj1 (Hw _ Lc)).
  rewrite (proj2 (Hw _ Lv)), (proj2 (Hw _ Lt)), (proj2 (Hw _ Lp)), (proj2 (Hw _ Lc)).
  cbn [app].
  assert (Hp : (1 <= effective_processes W args)%Z)
    by (pose proof (effective_processes_pos W args); lia).
  pose proof (main_dispatched W urls (args_quality args) (args_output args)
                (cookie_path W args) (args_quiet_ydl args) s Hp) as Hm.
  cbv zeta in Hm.
  destruct (os_makedirs W (os_abspath W (args_output args))) as [[]|e0]; exact Hm.
Qed.

(** C6 (as amended): with a URL file given by a non-empty path, the list
    comprehension keeps exactly what the spec says (blank lines and lines
    beginning with [#] are skipped, the others are stripped); a file that
    cannot be opened, or that yields no URL, ends the process with status
    1 after log lines only (no directory, no pool, no dispatch); otherwise
    [main] runs on the URLs of the file and, the output directory being
    created, the pool is handed exactly one request list, with one
    request per URL (and none when the creation fails); a file of two
    real lines, one comment line and one blank line, in any order, gives
    a request list of exactly two requests. *)
Theorem url_file_loading (W : World) (args : Args) (file : string) :
  args_urls args = None ->
  args_file args = Some file ->
  Str.truthy file = true ->
  let r := run W args in
  match open_lines W (os_abspath W file) with
  | Err _ =>
      outcome_of r = Raised (SystemExit 1) /\ exit_status (outcome_of r) = 1%Z /\
      log_only (trace_of r) = true /\ dispatched (trace_of r) = []
  | Ok lines =>
      let urls := urls_of_lines lines in
      let reqs := requests urls (args_quality args) (args_output args)
                           (cookie_path W args) (args_quiet_ydl args) in
      let handed := match os_makedirs W (os_abspath W (args_output args)) with
                    | Ok _ => [reqs]
                    | Err _ => []
                    end in
      urls = spec_url_list lines /\
      match urls with
      | [] =>
          outcome_of r = Raised (SystemExit 1) /\ exit_status (outcome_of r) = 1%Z /\
          log_only (trace_of r) = true /\ dispatched (trace_of r) = []
      | _ :: _ =>
          (exists pre,
             log_only pre = true /\
             let m := main W urls (args_quality args) (args_output args)
                           (effective_processes W args) (cookie_path W args)
                           (args_quiet_ydl args) unassigned in
             r = ((pre ++ trace_of m)%list, locals_of m, outcome_of m)) /\
          dispatched (trace_of r) = handed /\
          map url_of reqs = urls
      end /\
      (forall r1 r2 c b,
          Permutation lines [r1; r2; c; b] ->
          all_space r1 = false -> begins_with_hash r1 = false ->
          all_space r2 = false -> begins_with_hash r2 = false ->
          begins_with_hash c = true ->
          all_space b = true ->
          List.length reqs = 2 /\
          dispatched (trace_of r) = handed)
  end.
Proof.
  intros Hu Hf Ht. cbv zeta.
  assert (El : load_urls W args unassigned = load_file W file unassigned).
  { unfold load_urls. rewrite Hu, Hf. cbn [opt_truthy reason_str]. rewrite Ht. reflexivity. }
  pose proof (load_file_run W file unassigned) as Ef. cbv zeta in Ef.
  destruct (preamble_log_only W args) as (Lv & Lp & Lc).
  assert (Hq : forall x, log_only x = true -> dispatched x = [])
    by (intros x Hx; apply worker_events_dispatched, log_only_worker_events, Hx).
  destruct (open_lines W (os_abspath W file)) as [lines|e].
  - split; [apply urls_of_lines_spec|].
    destruct (urls_of_lines lines) as [|u us] eqn:Eu.
    + split.
      * rewrite script_run, El, Ef. unfold outcome_of, trace_of. cbn [fst snd].
        rewrite log_only_app, dispatched_app, Lv, (Hq _ Lv). auto.
      * intros r1 r2 c b Hp H1 H1' H2 H2' Hc Hb. exfalso.
        pose proof (urls_of_lines_perm_length Hp) as Hlen.
        rewrite Eu, !urls_of_lines_cons, H1, H1', H2, H2', Hc, Hb, Bool.orb_true_r in Hlen.
        cbn in Hlen. discriminate.
    + rewrite <- El in Ef.
      destruct (run_starts W args Ef) as (Hd & _).
      split; [split; [|split]|].
      * rewrite script_run, Ef. cbv zeta.
        exists (verbose_line args
                ++ [Log INFO ("Loaded " ++ Str.of_nat (List.length (u :: us)) ++ " URLs from "
                              ++ os_abspath W file)]
                ++ processes_warning W args ++ cookie_warning W args)%list.
        split.
        -- rewrite !log_only_app, Lv, Lp, Lc. reflexivity.
        -- rewrite <- !app_assoc. reflexivity.
      * exact Hd.
      * apply requests_urls.
      * intros r1 r2 c b Hp H1 H1' H2 H2' Hc Hb.
        assert (Hlen : List.length (u :: us) = 2).
        { rewrite <- Eu, (urls_of_lines_perm_length Hp).
          rewrite !urls_of_lines_cons, H1, H1', H2, H2', Hc, Hb, Bool.orb_true_r.
          reflexivity. }
        split; [rewrite requests_length; exact Hlen|exact Hd].
  - assert (Ee : load_file W file unassigned
                 = (fst (fst (load_file W file unassigned)), unassigned, Raised (SystemExit 1))
                 /\ log_only (fst (fst (load_file W file unassigned))) = true)
      by (rewrite Ef; destruct e; split; reflexivity).
    destruct Ee as [Ee Le].
    rewrite script_run, El, Ee. unfold outcome_of, trace_of. cbn [fst snd].
    rewrite log_only_app, dispatched_app, Lv, Le, (Hq _ Lv), (Hq _ Le). auto.
Qed.

Lemma url_file_loading_witness :
  args_urls (Ex.from_file "urls.txt") = None /\
  args_file (Ex.from_file "urls.txt") = Some "urls.txt" /\
  Str.truthy "urls.txt" = true /\
  List.length (requests (urls_of_lines Ex.url_file) "720" "out" None false) = 2 /\
  dispatched (trace_of (run (Ex.world [] None) (Ex.from_file "urls.txt")))
  = [[("https://a", "720", "out", None, false); ("https://b", "720", "out", None, false)]].
Proof.
  split; [reflexivity|]. split; [reflexivity|]. split; [reflexivity|].
  exact (proj2 (proj2 (url_file_loading (Ex.world [] None) (Ex.from_file "urls.txt")
                         eq_refl eq_refl eq_refl))
               ("https://a" ++ LF) ("  https://b  " ++ LF) ("# a comment" ++ LF) LF
               (perm_skip _ (Permutation_trans (perm_skip _ (perm_swap _ _ _))
                                               (perm_swap _ _ _)))
               eq_refl eq_refl eq_refl eq_refl eq_refl eq_refl).
Defined.

(** C6, as stated, fails: a URL file is given, by the empty path, and no
    such file can be opened, yet the process does not exit with status 1:
    the block that reads the file is skipped, an empty batch is handed to
    the pool and the process ends with status 0. *)
Lemma empty_file_path_is_not_fatal :
  let W := Ex.world [] None in
  let r := run W (Ex.from_file EmptyString) in
  args_urls (Ex.from_file EmptyString) = None /\
  args_file (Ex.from_file EmptyString) = Some EmptyString /\
  open_lines W (os_abspath W EmptyString)
  = Err (FileNotFoundError "[Errno 2] No such file or directory: '/home/u/'") /\
  outcome_of r = Returned tt /\
  exit_status (outcome_of r) = 0%Z /\
  dispatched (trace_of r) = [[]].
Proof.
  vm_compute. repeat split.
Qed.

(** C8: the script passes [main] the configured worker count when it is
    positive and [cpu_count()] otherwise; either way the count is
    positive, and it is the size of the one pool the run starts: when the
    URLs are loaded and the output directory is created, exactly one pool
    comes up, with that many workers, and otherwise none. *)
Theorem worker_count_is_positive (W : World) (args : Args) (s : Counters) :
  let n := if (args_processes args <=? 0)%Z
           then Z.pos (cpu_count W)
           else args_processes args in
  outcome_of (resolve_processes W args s) = Returned n /\
  (0 < n)%Z /\
  Forall (fun p => p = n) (pool_starts (trace_of (run W args))) /\
  pool_starts (trace_of (run W args))
  = match outcome_of (load_urls W args unassigned),
          os_makedirs W (os_abspath W (args_output args)) with
    | Returned _, Ok _ => [n]
    | _, _ => []
    end.
Proof.
  cbv zeta. rewrite resolve_processes_run.
  change (if (args_processes args <=? 0)%Z then Z.pos (cpu_count W) else args_processes args)
    with (effective_processes W args).
  split; [reflexivity|]. split; [apply effective_processes_pos|].
  destruct (load_urls_run W args unassigned) as (t & [E|[urls E]] & Lt & _).
  - rewrite script_run, E. unfold trace_of, outcome_of. cbn [fst snd].
    destruct (preamble_log_only W args) as (Lv & _).
    rewrite pool_starts_app.
    rewrite (worker_events_pool_starts _ (log_only_worker_events _ Lv)).
    rewrite (worker_events_pool_starts _ (log_only_worker_events _ Lt)).
    split; [constructor|reflexivity].
  - rewrite (proj2 (run_starts W args E)), E. unfold outcome_of. cbn [snd].
    destruct (os_makedirs W (os_abspath W (args_output args))) as [[]|e0];
      split; repeat constructor.
Qed.

Lemma download_video_opened w args s :
  opened (trace_of (download_video w args s)) =
  match ua w with
  | Some (Err _) => []
  | _ => [built_opts w args]
  end.
Proof.
  destruct (download_video_run w args s) as (t' & ok & msg & E & Hl).
  rewrite E. unfold trace_of at 1. cbn [fst snd].
  rewrite opened_app, (log_only_opened _ Hl), app_nil_r. apply try_opened.
Qed.

(** C9: the worker puts the cookie file into the option bundle exactly
    when a path is given and exists; for a path that is given and
    missing it logs a warning and still opens the engine session, without
    the cookie file; the script, for a missing cookie file, logs a warning
    and, the directory being created, still dispatches one request per
    URL. *)
Theorem missing_cookie_file_is_advisory :
  (forall (w : WorkerWorld) (args : args_tuple) (s : string),
      Forall (fun opts =>
                cookiefile opts =
                match cookie_of args with
                | Some c => if Str.truthy c && path_exists w c then Some c else None
                | None => None
                end)
             (opened (trace_of (download_video w args s)))) /\
  (forall (w : WorkerWorld) (url quality output_dir c : string) (quiet_ydl : bool)
          (s : string),
      Str.truthy c = true ->
      path_exists w c = false ->
      (forall e, ua w <> Some (Err e)) ->
      let t := trace_of (download_video w (url, quality, output_dir, Some c, quiet_ydl) s) in
      logged WARNING ("Cookie file specified but not found: " ++ c) t = true /\
      exists opts, opened t = [opts] /\ cookiefile opts = None) /\
  (forall (W : World) (args : Args) (c : string) (urls : list string),
      args_cookiefile args = Some c ->
      Str.truthy c = true ->
      os_exists W (os_abspath W c) = false ->
      outcome_of (load_urls W args unassigned) = Returned urls ->
      os_makedirs W (os_abspath W (args_output args)) = Ok tt ->
      let r := run W args in
      logged WARNING ("Specified cookie file does not exist: " ++ os_abspath W c)
             (trace_of r) = true /\
      dispatched (trace_of r)
      = [requests urls (args_quality args) (args_output args) (Some (os_abspath W c))
                  (args_quiet_ydl args)] /\
      List.length (requests urls (args_quality args) (args_output args)
                            (Some (os_abspath W c)) (args_quiet_ydl args))
      = List.length urls).
Proof.
  split; [|split].
  - intros w args s. rewrite download_video_opened.
    destruct args as [[[[url quality] output_dir] cookie] quiet_ydl].
    destruct (ua w) as [[fresh|e]|]; repeat constructor.
  - intros w url quality output_dir c quiet_ydl s Ht Hp Hua. cbv zeta.
    rewrite download_video_opened.
    destruct (download_video_run w (url, quality, output_dir, Some c, quiet_ydl) s)
      as (t' & ok & msg & E & Hl).
    rewrite E. unfold trace_of at 1. cbn [fst snd].
    pose proof (@try_cookie_warning w url quality output_dir c quiet_ydl url Ht Hp) as Hw.
    assert (Hlog : logged WARNING ("Cookie file specified but not found: " ++ c)
                     (trace_of (download_video_try w (url, quality, output_dir, Some c, quiet_ydl)
                                  url)) = true).
    { destruct (ua w) as [[fresh|e]|]; try (exfalso; eapply Hua; reflexivity);
        destruct Hw as [rest ->]; cbn [logged existsb Level_eqb andb];
        rewrite String.eqb_refl; reflexivity. }
    split.
    + rewrite logged_app. cbn [url_of]. rewrite Hlog. reflexivity.
    + destruct (ua w) as [[fresh|e]|]; try (exfalso; eapply Hua; reflexivity);
        eexists; (split; [reflexivity|]); cbn; rewrite Ht, Hp; reflexivity.
  - intros W args c urls Hc Ht He Hu Hmk. cbv zeta.
    assert (Ecp : cookie_path W args = Some (os_abspath W c)).
    { unfold cookie_path. rewrite Hc. cbn [opt_truthy reason_str]. rewrite Ht. reflexivity. }
    assert (Ecw : cookie_warning W args
                  = [Log WARNING ("Specified cookie file does not exist: " ++ os_abspath W c)]).
    { unfold cookie_warning. rewrite Ecp, He. reflexivity. }
    destruct (load_urls W args unassigned) as [[t s] o] eqn:El.
    unfold outcome_of in Hu. cbn [snd] in Hu. subst o.
    destruct (run_dispatched W args El) as (_ & _ & Hd).
    rewrite Ecp in Hd. split; [|split; [exact (Hd Hmk)|apply requests_length]].
    rewrite script_run, El. cbv zeta. unfold trace_of at 1. cbn [fst snd].
    rewrite !logged_app, Ecw. cbn [logged existsb Level_eqb andb].
    rewrite String.eqb_refl. cbn [orb]. rewrite !Bool.orb_true_r. reflexivity.
Qed.

Lemma missing_cookie_file_witness :
  args_cookiefile (Ex.inline 2 (Some "missing.txt")) = Some "missing.txt" /\
  Str.truthy "missing.txt" = true /\
  os_exists (Ex.world [] None) (os_abspath (Ex.world [] None) "missing.txt") = false /\
  outcome_of (load_urls (Ex.world [] None) (Ex.inline 2 (Some "missing.txt")) unassigned)
    = Returned Ex.urls /\
  os_makedirs (Ex.world [] None) (os_abspath (Ex.world [] None) "out") = Ok tt /\
  logged WARNING "Specified cookie file does not exist: /home/u/missing.txt"
         (trace_of (run (Ex.world [] None) (Ex.inline 2 (Some "missing.txt")))) = true /\
  dispatched (trace_of (run (Ex.world [] None) (Ex.inline 2 (Some "missing.txt"))))
    = [requests Ex.urls "720" "out" (Some "/home/u/missing.txt") false].
Proof.
  split; [reflexivity|]. split; [reflexivity|]. split; [reflexivity|].
  split; [reflexivity|]. split; [reflexivity|].
  pose proof (proj2 (proj2 missing_cookie_file_is_advisory)
                (Ex.world [] None) (Ex.inline 2 (Some "missing.txt")) "missing.txt" Ex.urls
                eq_refl eq_refl eq_refl eq_refl eq_refl) as H.
  exact (conj (proj1 H) (proj1 (proj2 H))).
Defined.



Lemma main_collects_witness :
  os_makedirs (Ex.world [Finish 2; Finish 0] None)
              (os_abspath (Ex.world [Finish 2; Finish 0] None) "out") = Ok tt /\
  (1 <= 2)%Z /\
  forallb is_finish (schedule (Ex.world [Finish 2; Finish 0] None)) = true /\
  exists jobs results pre,
    Permutation jobs (number (requests Ex.urls "720" "out" None false)) /\
    Forall2 (ran (Ex.world [Finish 2; Finish 0] None)) jobs results /\
    Permutation (map result_url results) Ex.urls /\
    List.length results = List.length Ex.urls /\
    main (Ex.world [Finish 2; Finish 0] None) Ex.urls "720" "out" 2 None false unassigned =
      ((pre ++ summary_block "/home/u/out" (tally results))%list, tally results, Returned tt) /\
    success_count (tally results) = List.length (filter succeeded results) /\
    fail_count (tally results)
      = List.length (filter (fun r => negb (succeeded r)) results) /\
    success_count (tally results) + fail_count (tally results) = List.length Ex.urls.
Proof.
  split; [reflexivity|]. split; [discriminate|]. split; [reflexivity|].
  apply (main_collects_every_result (Ex.world [Finish 2; Finish 0] None) Ex.urls
           "720" "out" None false unassigned); [reflexivity|lia|reflexivity].
Defined.

(** * Further properties of [ytdl_pro.py] *)

(** ** The worker's results *)

Lemma download_video_result_shape w args s :
  exists t title,
    download_video w args s = (t, title, Returned (url_of args, true, None))
    \/ exists m, download_video w args s = (t, title, Returned (url_of args, false, Some m)).
Proof.
  unfold download_video. unfold_py.
  pose proof (try_outcome w args (url_of args)) as Ho.
  destruct (download_video_try w args (url_of args)) as [[t s1] o].
  unfold outcome_of in Ho; cbn [snd] in Ho.
  destruct o as [r|[e| |c]]; try contradiction.
  - subst r. do 2 eexists. left. reflexivity.
  - destruct e; cbn -[String.append]; do 2 eexists; right; eexists; reflexivity.
Qed.

Lemma ran_shape W job r :
  ran W job r ->
  result_url r = url_of (snd job) /\
  (r = (result_url r, true, None) \/ exists m, r = (result_url r, false, Some m)).
Proof.
  unfold ran. intros H.
  destruct (download_video_result_shape (worker_world W (fst job)) (snd job) EmptyString)
    as (t & title & [E|[m E]]); rewrite E in H; unfold outcome_of in H; cbn [snd] in H;
    injection H as <-; (split; [reflexivity|]); [left|right; exists m]; reflexivity.
Qed.

Lemma ran_functional W job r r' : ran W job r -> ran W job r' -> r = r'.
Proof. unfold ran. intros H H'. rewrite H in H'. injection H' as ->. reflexivity. Qed.

(** ** The counting loop *)

Lemma count_failures results : forall c,
  failed_urls (fold_left count_step results c)
  = (failed_urls c ++ map failure_of (filter failed results))%list.
Proof.
  induction results as [|[[url ok] msg] results IH]; intros c; cbn -[failure_of].
  - rewrite app_nil_r. reflexivity.
  - rewrite IH. unfold failed, succeeded. destruct ok; cbn -[failure_of].
    + reflexivity.
    + rewrite <- app_assoc. reflexivity.
Qed.

(** X1: the counting loop of [main], started from zero, ends with the
    number of successful results, the number of failed ones, and the
    failed ones' URL and message in the order the results were
    collected; it logs nothing and cannot fail. *)
Theorem counting_loop_totals (results : list result_tuple) :
  for_each results count_result (mkCounters 0 0 []) =
  ([],
   mkCounters (List.length (filter succeeded results))
              (List.length (filter failed results))
              (map failure_of (filter failed results)),
   Returned tt).
Proof.
  rewrite count_loop.
  destruct (count_totals results (mkCounters 0 0 [])) as [Hs Hf]. cbn in Hs, Hf.
  pose proof (count_failures results (mkCounters 0 0 [])) as Hl. cbn [failed_urls app] in Hl.
  destruct (fold_left count_step results (mkCounters 0 0 [])) as [sc fc fl].
  cbn in Hs, Hf, Hl. subst. reflexivity.
Qed.

(** ** Results whatever the pool does *)

Section DrainResults.
Variable St : Type.
Variable W : World.

Lemma drain_results steps : forall pending acc (s : St),
  Forall well_formed acc ->
  match outcome_of (drain W steps pending acc s) with
  | Returned results => Forall well_formed results
  | Raised _ => True
  end.
Proof.
  assert (Hrev : forall acc, Forall well_formed acc -> Forall well_formed (rev acc)).
  { intros acc. rewrite !Forall_forall. intros H x Hx. apply H, in_rev, Hx. }
  induction steps as [|[k| |msg] steps IH]; intros pending acc s Ha;
    destruct pending as [|p pending]; try exact I; try (apply Hrev; exact Ha).
  destruct (@drain_step_finish St W k steps (p :: pending) acc s)
    as (job & t & r & _ & Hr & _ & _ & E); [congruence|].
  rewrite E.
  specialize (IH (remove_at (k mod List.length (p :: pending)) (p :: pending)) (r :: acc) s).
  destruct (drain W steps _ _ s) as [[t' s'] o]. apply IH.
  constructor; [exact (proj2 (ran_shape Hr))|exact Ha].
Qed.

End DrainResults.

Lemma tally_failures_have_reasons results :
  Forall well_formed results -> Forall has_reason (failed_urls (tally results)).
Proof.
  intros Hw. unfold tally. rewrite count_failures. cbn [failed_urls app].
  induction Hw as [|r results Hr _ IH]; [constructor|].
  cbn [filter]. destruct (failed r) eqn:Ef; [|exact IH].
  cbn [map]. constructor; [|exact IH].
  destruct Hr as [Hr|[m Hr]]; rewrite Hr in Ef |- *.
  - discriminate Ef.
  - exists m. reflexivity.
Qed.

(** X2: whatever the workers, the pool and the file system do, every
    entry of the failure list that [main] prints in its summary carries
    a message: a failed download is never listed with the reason [None]. *)
Theorem failures_always_have_a_reason (W : World) (urls : list string)
  (quality output_dir : string) (processes : Z) (cookie : option string)
  (quiet_ydl : bool) :
  Forall has_reason
         (failed_urls
            (locals_of (main W urls quality output_dir processes cookie quiet_ydl unassigned))).
Proof.
  rewrite main_run. cbv zeta.
  destruct (os_makedirs W (os_abspath W output_dir)) as [[]|e0];
    [|destruct (is_OSError e0); constructor].
  destruct (processes <? 1)%Z; [constructor|].
  pose proof (@drain_results Counters W
                (schedule W ++ repeat (Finish 0)
                   (List.length (requests urls quality output_dir cookie quiet_ydl)))%list
                (number (requests urls quality output_dir cookie quiet_ydl)) []
                (mkCounters 0 0 []) (Forall_nil _)) as Hd.
  destruct (outcome_of _) as [results|[e| |code]]; try constructor.
  unfold locals_of. cbn [fst snd]. apply tally_failures_have_reasons, Hd.
Qed.

(** ** Completion order *)

(** A run that is not cut short, by the results it collects. *)
Lemma main_collects_results W urls quality output_dir processes cookie quiet_ydl s :
  os_makedirs W (os_abspath W output_dir) = Ok tt ->
  (1 <= processes)%Z ->
  forallb is_finish (schedule W) = true ->
  exists jobs results,
    Permutation jobs (number (requests urls quality output_dir cookie quiet_ydl)) /\
    Forall2 (ran W) jobs results /\
    locals_of (main W urls quality output_dir processes cookie quiet_ydl s) = tally results.
Proof.
  intros Hmk Hp Hs.
  rewrite main_run. cbv zeta. rewrite Hmk.
  replace (processes <? 1)%Z with false by (symmetry; apply Z.ltb_ge; lia).
  set (download_args := requests urls quality output_dir cookie quiet_ydl).
  destruct (@drain_clean Counters W
              (schedule W ++ repeat (Finish 0) (List.length download_args))%list
              (number download_args) [] (mkCounters 0 0 []))
    as (jobs & results & t & Hperm & Hran & _ & Ed).
  { rewrite forallb_app, Hs. cbn. clear. induction (List.length download_args); auto. }
  { rewrite number_length, length_app, repeat_length. lia. }
  rewrite Ed. unfold outcome_of, locals_of. cbn [fst snd rev app].
  exists jobs, results. auto.
Qed.

Lemma Forall2_permutation A B (R : A -> B -> Prop) l1 l2 :
  Permutation l1 l2 ->
  forall r1, Forall2 R l1 r1 -> exists r2, Forall2 R l2 r2 /\ Permutation r1 r2.
Proof.
  induction 1 as [|x l l' Hp IH|x y l|l l' l'' H1 IH1 H2 IH2]; intros r1 Hf.
  - inversion Hf; subst. exists []. split; constructor.
  - inversion Hf as [|a b la lb Hab Hrest]; subst.
    destruct (IH _ Hrest) as (r2 & Hf2 & Hp2).
    exists (b :: r2). split; constructor; assumption.
  - inversion Hf as [|a b la lb Hab Hrest]; subst.
    inversion Hrest as [|a' b' la' lb' Hab' Hrest']; subst.
    exists (b' :: b :: lb'). split; [repeat constructor; assumption|apply perm_swap].
  - destruct (IH1 _ Hf) as (r2 & Hf2 & Hp2).
    destruct (IH2 _ Hf2) as (r3 & Hf3 & Hp3).
    exists r3. split; [assumption|eapply Permutation_trans; eassumption].
Qed.

Lemma Forall2_ran_functional W jobs : forall r r',
  Forall2 (ran W) jobs r -> Forall2 (ran W) jobs r' -> r = r'.
Proof.
  induction jobs as [|job jobs IH]; intros r r' H H'; inversion H; inversion H'; subst.
  - reflexivity.
  - f_equal; [eapply ran_functional; eassumption|apply IH; assumption].
Qed.

Lemma filter_length_perm A (f : A -> bool) l l' :
  Permutation l l' -> Permutation (filter f l) (filter f l').
Proof.
  induction 1 as [|x l l' Hp IH|x y l|l l' l'' H1 IH1 H2 IH2]; cbn.
  - constructor.
  - destruct (f x); [constructor|]; exact IH.
  - destruct (f x), (f y); try reflexivity. apply perm_swap.
  - eapply Permutation_trans; eassumption.
Qed.

(** X3: when two runs of [main] differ only in the order in which the
    workers finish, neither being interrupted nor hit by a pool error,
    they count the same numbers of successes and failures, and their
    failure lists hold the same entries, in possibly different order. *)
Theorem counts_do_not_depend_on_completion_order (W : World) (steps1 steps2 : list PoolStep)
  (urls : list string) (quality output_dir : string) (processes : Z)
  (cookie : option string) (quiet_ydl : bool) (s : Counters) :
  os_makedirs W (os_abspath W output_dir) = Ok tt ->
  (1 <= processes)%Z ->
  forallb is_finish steps1 = true ->
  forallb is_finish steps2 = true ->
  let c1 := locals_of (main (with_schedule W steps1) urls quality output_dir processes
                            cookie quiet_ydl s) in
  let c2 := locals_of (main (with_schedule W steps2) urls quality output_dir processes
                            cookie quiet_ydl s) in
  success_count c1 = success_count c2 /\
  fail_count c1 = fail_count c2 /\
  Permutation (failed_urls c1) (failed_urls c2).
Proof.
  intros Hmk Hp H1 H2. cbv zeta.
  destruct (@main_collects_results (with_schedule W steps1) urls quality output_dir processes
              cookie quiet_ydl s Hmk Hp H1) as (jobs1 & res1 & Hj1 & Hr1 & E1).
  destruct (@main_collects_results (with_schedule W steps2) urls quality output_dir processes
              cookie quiet_ydl s Hmk Hp H2) as (jobs2 & res2 & Hj2 & Hr2 & E2).
  rewrite E1, E2.
  assert (Hperm : Permutation res1 res2).
  { assert (Hj : Permutation jobs1 jobs2)
      by (eapply Permutation_trans; [exact Hj1|symmetry; exact Hj2]).
    destruct (Forall2_permutation Hj Hr1) as (r2 & Hf & Hp2).
    change (ran (with_schedule W steps1)) with (ran (with_schedule W steps2)) in Hf.
    rewrite (Forall2_ran_functional Hr2 Hf). exact Hp2. }
  unfold tally.
  destruct (count_totals res1 (mkCounters 0 0 [])) as [Hs1 Hf1].
  destruct (count_totals res2 (mkCounters 0 0 [])) as [Hs2 Hf2].
  cbv zeta in Hs1, Hf1, Hs2, Hf2. rewrite Hs1, Hf1, Hs2, Hf2, !count_failures.
  cbn [success_count fail_count failed_urls app Nat.add].
  split; [|split].
  - apply Permutation_length, filter_length_perm, Hperm.
  - apply Permutation_length, filter_length_perm, Hperm.
  - apply Permutation_map, filter_length_perm, Hperm.
Qed.

Lemma completion_order_witness :
  os_makedirs (Ex.world [] None) (os_abspath (Ex.world [] None) "out") = Ok tt /\
  (1 <= 2)%Z /\
  forallb is_finish [Finish 2; Finish 0] = true /\
  forallb is_finish [Finish 1] = true /\
  success_count
    (locals_of (main (with_schedule (Ex.world [] None) [Finish 2; Finish 0]) Ex.urls
                     "720" "out" 2 None false unassigned))
  = success_count
      (locals_of (main (with_schedule (Ex.world [] None) [Finish 1]) Ex.urls
                       "720" "out" 2 None false unassigned)).
Proof.
  split; [reflexivity|]. split; [lia|]. split; [reflexivity|]. split; [reflexivity|].
  apply (@counts_do_not_depend_on_completion_order (Ex.world [] None)
           [Finish 2; Finish 0] [Finish 1] Ex.urls "720" "out" 2 None false unassigned);
    [reflexivity|lia|reflexivity|reflexivity].
Defined.

(** ** The engine session *)

Lemma closes_app t t' : closes (t ++ t') = closes t + closes t'.
Proof.
  induction t as [|e t IH]; [reflexivity|].
  destruct e; cbn; rewrite IH; reflexivity.
Qed.

Lemma log_only_closes t : log_only t = true -> closes t = 0.
Proof.
  induction t as [|e t IH]; [reflexivity|].
  destruct e; cbn; try discriminate; exact IH.
Qed.

Lemma try_session w args s :
  let t := trace_of (download_video_try w args s) in
  let entered :=
    match ua w with
    | Some (Err _) => false
    | _ => match YoutubeDL_enter w (built_opts w args) with
           | Ok _ => true
           | Err _ => false
           end
    end in
  closes t = (if entered then 1 else 0) /\
  downloads t =
    (if entered
     then match extract_info w (built_opts w args) (url_of args) with
          | Ok (Some _) => [url_of args]
          | _ => []
          end
     else []).
Proof.
  destruct args as [[[[url quality] output_dir] cookie] quiet_ydl].
  unfold download_video_try, trace_of, built_opts, user_agent_of, url_of, set_cookiefile.
  unfold_py. cbn -[String.append].
  destruct (ua w) as [[fresh|e]|]; cbn -[String.append]; try (split; reflexivity);
    (destruct cookie as [c|];
     [destruct (Str.truthy c && path_exists w c); [|destruct (Str.truthy c)]|]);
    cbn -[String.append];
    case_split; split; try reflexivity; try discriminate.
Qed.

(** X4: the worker leaves the engine session exactly once when it has
    entered it, on every way out of the [with] block (return, engine
    error, missing metadata), and never when the identity generator or the
    session's construction raised. *)
Theorem session_is_released_once (w : WorkerWorld) (args : args_tuple) (s : string) :
  closes (trace_of (download_video w args s)) =
  match ua w with
  | Some (Err _) => 0
  | _ => match YoutubeDL_enter w (built_opts w args) with
         | Ok _ => 1
         | Err _ => 0
         end
  end.
Proof.
  destruct (download_video_run w args s) as (t' & ok & msg & E & Hl).
  rewrite E. unfold trace_of at 1. cbn [fst snd].
  rewrite closes_app, (log_only_closes _ Hl), Nat.add_0_r.
  rewrite (proj1 (try_session w args (url_of args))).
  destruct (ua w) as [[fresh|e]|]; try reflexivity;
    destruct (YoutubeDL_enter w (built_opts w args)); reflexivity.
Qed.

(** X5: the worker starts a transfer, and then exactly one, for its own
    URL, only after the session was entered and the metadata resolution
    returned a dictionary; when [extract_info] raises or returns [None]
    nothing is transferred. *)
Theorem transfer_needs_metadata (w : WorkerWorld) (args : args_tuple) (s : string) :
  downloads (trace_of (download_video w args s)) =
  match ua w with
  | Some (Err _) => []
  | _ => match YoutubeDL_enter w (built_opts w args) with
         | Err _ => []
         | Ok _ => match extract_info w (built_opts w args) (url_of args) with
                   | Ok (Some _) => [url_of args]
                   | _ => []
                   end
         end
  end.
Proof.
  destruct (download_video_run w args s) as (t' & ok & msg & E & Hl).
  rewrite E. unfold trace_of at 1. cbn [fst snd].
  rewrite downloads_app, (log_only_downloads _ Hl), app_nil_r.
  rewrite (proj2 (try_session w args (url_of args))).
  destruct (ua w) as [[fresh|e]|]; try reflexivity;
    destruct (YoutubeDL_enter w (built_opts w args)); reflexivity.
Qed.

(** X6: when the metadata resolution returns [None], the worker reports
    the item as failed with the message of the attribute error, names the
    video by its URL in the error line, starts no transfer and still
    leaves the session. *)
Theorem missing_metadata_is_a_failure (w : WorkerWorld) (args : args_tuple) (s : string) :
  generator_works w ->
  YoutubeDL_enter w (built_opts w args) = Ok tt ->
  extract_info w (built_opts w args) (url_of args) = Ok None ->
  YoutubeDL_exit w (built_opts w args) = Ok tt ->
  let r := download_video w args s in
  let url := url_of args in
  outcome_of r
  = Returned (url, false,
              Some "Unexpected error: 'NoneType' object has no attribute 'get'") /\
  logged ERROR ("Unexpected error downloading '" ++ url ++ "' (" ++ url
                ++ "): 'NoneType' object has no attribute 'get'") (trace_of r) = true /\
  downloads (trace_of r) = [] /\
  closes (trace_of r) = 1.
Proof.
  intros Hg He Hi Hx. cbv zeta.
  destruct args as [[[[url quality] output_dir] cookie] quiet_ydl].
  unfold generator_works in Hg.
  unfold download_video, download_video_try, download_video_except, trace_of, outcome_of,
    built_opts, user_agent_of, url_of, set_cookiefile in *.
  unfold_py. cbn -[String.append] in *.
  destruct (ua w) as [[fresh|e]|]; try contradiction; cbn -[String.append] in *;
    (destruct cookie as [c|]; [destruct (Str.truthy c && path_exists w c) eqn:Ec;
                               [|destruct (Str.truthy c)]|]);
    cbn -[String.append] in *; rewrite He; cbn -[String.append]; rewrite Hi;
    cbn -[String.append]; rewrite Hx; cbn -[String.append];
    (repeat split; try reflexivity);
    cbn [logged existsb Level_eqb andb orb]; rewrite String.eqb_refl;
    rewrite ?Bool.orb_true_r; reflexivity.
Qed.

Lemma missing_metadata_witness :
  generator_works Ex.worker_without_info /\
  outcome_of (download_video Ex.worker_without_info
                ("https://a", "720", "out", None, false) EmptyString)
  = Returned ("https://a", false,
              Some "Unexpected error: 'NoneType' object has no attribute 'get'").
Proof.
  split; [exact I|].
  exact (proj1 (@missing_metadata_is_a_failure Ex.worker_without_info
                  ("https://a", "720", "out", None, false) EmptyString
                  I eq_refl eq_refl eq_refl)).
Defined.

(** X7: when the transfer itself fails with a download error after the
    metadata was resolved, the worker reports the item as failed with the
    engine's message unchanged, and its error line names the video by the
    title found in the metadata, or by the URL when the dictionary has no
    title. *)
Theorem transfer_error_names_the_title (w : WorkerWorld) (args : args_tuple) (s : string)
  (info : option string) (m : string) :
  generator_works w ->
  YoutubeDL_enter w (built_opts w args) = Ok tt ->
  extract_info w (built_opts w args) (url_of args) = Ok (Some info) ->
  download w (built_opts w args) [url_of args] = Err (DownloadError m) ->
  YoutubeDL_exit w (built_opts w args) = Ok tt ->
  let r := download_video w args s in
  let url := url_of args in
  let title := match info with Some t => t | None => url end in
  outcome_of r = Returned (url, false, Some m) /\
  locals_of r = title /\
  logged ERROR ("yt-dlp error downloading '" ++ title ++ "' (" ++ url ++ "): " ++ m)
         (trace_of r) = true /\
  downloads (trace_of r) = [url] /\
  closes (trace_of r) = 1.
Proof.
  intros Hg He Hi Hd Hx. cbv zeta.
  destruct args as [[[[url quality] output_dir] cookie] quiet_ydl].
  unfold generator_works in Hg.
  unfold download_video, download_video_try, download_video_except, trace_of, outcome_of,
    locals_of, built_opts, user_agent_of, url_of, set_cookiefile in *.
  unfold_py. cbn -[String.append] in *.
  destruct (ua w) as [[fresh|e]|]; try contradiction; cbn -[String.append] in *;
    (destruct cookie as [c|]; [destruct (Str.truthy c && path_exists w c) eqn:Ec;
                               [|destruct (Str.truthy c)]|]);
    cbn -[String.append] in *; rewrite He; cbn -[String.append]; rewrite Hi;
    destruct info as [title|]; cbn -[String.append]; rewrite Hd; cbn -[String.append];
    rewrite Hx; cbn -[String.append];
    (repeat split; try reflexivity);
    cbn [logged existsb Level_eqb andb orb]; rewrite String.eqb_refl;
    rewrite ?Bool.orb_true_r; reflexivity.
Qed.

Lemma transfer_error_witness :
  generator_works Ex.worker /\
  outcome_of (download_video Ex.worker ("https://b", "720", "out", None, false) EmptyString)
  = Returned ("https://b", false, Some "ERROR: Video unavailable") /\
  logged ERROR
    "yt-dlp error downloading 'title of https://b' (https://b): ERROR: Video unavailable"
    (trace_of (download_video Ex.worker ("https://b", "720", "out", None, false) EmptyString))
  = true.
Proof.
  split; [exact I|].
  pose proof (@transfer_error_names_the_title Ex.worker
                ("https://b", "720", "out", None, false) EmptyString
                (Some "title of https://b") "ERROR: Video unavailable"
                I eq_refl eq_refl eq_refl eq_refl) as H.
  exact (conj (proj1 H) (proj1 (proj2 (proj2 H)))).
Defined.

(** ** The URLs of a file *)

Lemma rstrip_idempotent s : Str.rstrip (Str.rstrip s) = Str.rstrip s.
Proof.
  induction s as [|c s IH]; [reflexivity|].
  cbn [Str.rstrip]. destruct (Str.rstrip s) as [|d r] eqn:E.
  - destruct (Str.isspace c) eqn:Ec; [reflexivity|]. cbn. rewrite Ec. reflexivity.
  - cbn [Str.rstrip] in IH |- *. rewrite IH. reflexivity.
Qed.

Lemma strip_is_stripped s :
  Str.lstrip (Str.strip s) = Str.strip s /\ Str.rstrip (Str.strip s) = Str.strip s.
Proof.
  unfold Str.strip. split; [|apply rstrip_idempotent].
  destruct (lstrip_cases s) as [[_ El]|[_ (c & r & El & Hc)]]; rewrite El; [reflexivity|].
  destruct (@rstrip_keeps_head c r Hc) as [r' Er]. rewrite Er. cbn. rewrite Hc. reflexivity.
Qed.

(** X8: every URL read from a URL file is non-empty and has neither
    leading nor trailing whitespace (stripping it again changes nothing),
    and the file yields at most one URL per line. *)
Theorem file_urls_are_stripped (lines : list string) :
  Forall (fun u => Str.truthy u = true /\ Str.lstrip u = u /\ Str.rstrip u = u
                   /\ Str.strip u = u)
         (urls_of_lines lines) /\
  List.length (urls_of_lines lines) <= List.length lines.
Proof.
  split.
  - induction lines as [|line lines IH]; [constructor|].
    rewrite urls_of_lines_cons.
    destruct (all_space line || begins_with_hash line) eqn:E; [exact IH|].
    constructor; [|exact IH].
    apply Bool.orb_false_elim in E. destruct E as [Ea _].
    destruct (strip_is_stripped line) as [Hl Hr].
    split; [rewrite strip_truthy, Ea; reflexivity|].
    split; [exact Hl|]. split; [exact Hr|].
    unfold Str.strip at 1. rewrite Hl. exact Hr.
  - unfold urls_of_lines. rewrite length_map. apply filter_length_le.
Qed.

(** ** The script *)

(** X9: URLs given on the command line are dispatched as they are: the
    script neither strips nor filters them (a URL that is blank or begins
    with [#] is sent to a worker like any other), opens no URL file, and,
    the directory being created, hands the pool one request per URL in
    the order given. *)
Theorem inline_urls_are_taken_verbatim (W : World) (args : Args) (u : string)
  (us : list string) :
  args_urls args = Some (u :: us) ->
  os_makedirs W (os_abspath W (args_output args)) = Ok tt ->
  load_urls W args unassigned = ([], unassigned, Returned (u :: us)) /\
  dispatched (trace_of (run W args))
  = [requests (u :: us) (args_quality args) (args_output args) (cookie_path W args)
              (args_quiet_ydl args)] /\
  map url_of (requests (u :: us) (args_quality args) (args_output args) (cookie_path W args)
                       (args_quiet_ydl args)) = u :: us.
Proof.
  intros Hu Hmk.
  assert (El : load_urls W args unassigned = ([], unassigned, Returned (u :: us)))
    by (unfold load_urls; rewrite Hu; reflexivity).
  split; [exact El|]. split; [|apply requests_urls].
  exact (proj2 (proj2 (run_dispatched W args El)) Hmk).
Qed.

Lemma inline_urls_witness :
  args_urls (Ex.inline 2 None) = Some ("https://a" :: ["https://b"; "https://c"]) /\
  os_makedirs (Ex.world [] None) (os_abspath (Ex.world [] None) "out") = Ok tt /\
  dispatched (trace_of (run (Ex.world [] None) (Ex.inline 2 None)))
  = [requests Ex.urls "720" "out" None false].
Proof.
  split; [reflexivity|]. split; [reflexivity|].
  exact (proj1 (proj2 (@inline_urls_are_taken_verbatim (Ex.world [] None) (Ex.inline 2 None)
                         "https://a" ["https://b"; "https://c"] eq_refl eq_refl))).
Defined.


(** X11: with no inline URL and no (or an empty) URL file path, the
    script neither fails nor exits: it runs an empty batch.  The pool is
    handed an empty request list, no transfer is started, zero successes
    and zero failures are counted and the process ends normally. *)
Theorem empty_input_runs_an_empty_batch (W : World) (args : Args) :
  args_urls args = None ->
  opt_truthy (args_file args) = false ->
  os_makedirs W (os_abspath W (args_output args)) = Ok tt ->
  let r := run W args in
  outcome_of r = Returned tt /\
  dispatched (trace_of r) = [[]] /\
  downloads (trace_of r) = [] /\
  locals_of r = mkCounters 0 0 [] /\
  exists pre,
    trace_of r = (pre ++ summary_block (os_abspath W (args_output args))
                                       (mkCounters 0 0 []))%list.
Proof.
  intros Hu Hf Hmk. cbv zeta.
  assert (El : load_urls W args unassigned = ([], unassigned, Returned []))
    by (unfold load_urls; rewrite Hu, Hf; reflexivity).
  destruct (preamble_log_only W args) as (Lv & Lp & Lc).
  pose proof (proj2 (proj2 (run_dispatched W args El)) Hmk) as Hd.
  split; [|split; [exact Hd|]].
  - rewrite script_run, El. cbv zeta. unfold outcome_of at 1. cbn [snd].
    destruct (main_summary W [] (args_quality args) (args_output args)
                (effective_processes W args) (cookie_path W args) (args_quiet_ydl args)
                unassigned Hmk) as (pre & c & Em).
    rewrite Em. reflexivity.
  - rewrite script_run, El. cbv zeta. rewrite main_run. cbv zeta. rewrite Hmk.
    replace (effective_processes W args <? 1)%Z with false
      by (symmetry; apply Z.ltb_ge; pose proof (effective_processes_pos W args); lia).
    cbn [requests map List.length repeat number seq combine].
    assert (Ed : forall steps,
               drain W steps [] [] (mkCounters 0 0 []) = ([], mkCounters 0 0 [], Returned []))
      by (intros [|[k| |msg] steps]; reflexivity).
    rewrite Ed. unfold outcome_of, trace_of, locals_of. cbn [fst snd].
    pose proof (main_header_log_only W [] (args_quality args) (args_output args)
                  (effective_processes W args) (cookie_path W args)) as Lh.
    pose proof (ensured_log_only W (args_output args)) as Le.
    pose proof (summary_block_log_only (os_abspath W (args_output args)) (tally [])) as Ls.
    split; [|split; [reflexivity|]].
    + repeat (rewrite ?downloads_app; cbn [downloads app]).
      rewrite (log_only_downloads _ Lv), (log_only_downloads _ Lp), (log_only_downloads _ Lc),
        (log_only_downloads _ Lh), (log_only_downloads _ Le), (log_only_downloads _ Ls).
      reflexivity.
    + eexists. cbn [app]. rewrite !app_assoc. reflexivity.
Qed.

Lemma empty_input_witness :
  args_urls (Ex.from_file EmptyString) = None /\
  opt_truthy (args_file (Ex.from_file EmptyString)) = false /\
  os_makedirs (Ex.world [] None) (os_abspath (Ex.world [] None) "out") = Ok tt /\
  outcome_of (run (Ex.world [] None) (Ex.from_file EmptyString)) = Returned tt /\
  dispatched (trace_of (run (Ex.world [] None) (Ex.from_file EmptyString))) = [[]].
Proof.
  split; [reflexivity|]. split; [reflexivity|]. split; [reflexivity|].
  pose proof (@empty_input_runs_an_empty_batch (Ex.world [] None) (Ex.from_file EmptyString)
                eq_refl eq_refl eq_refl) as H.
  exact (conj (proj1 H) (proj1 (proj2 H))).
Defined.

(** ** Which transfers a run starts *)

Lemma worker_downloads w args s :
  downloads (trace_of (download_video w args s)) = []
  \/ downloads (trace_of (download_video w args s)) = [url_of args].
Proof.
  destruct (download_video_run w args s) as (t' & ok & msg & E & Hl).
  rewrite E. unfold trace_of at 1 3. cbn [fst snd].
  rewrite downloads_app, (log_only_downloads _ Hl), app_nil_r.
  rewrite (proj2 (try_session w args (url_of args))).
  destruct (ua w) as [[fresh|e]|]; auto;
    destruct (YoutubeDL_enter w (built_opts w args)); auto;
    destruct (extract_info w (built_opts w args) (url_of args)) as [[i|]|]; auto.
Qed.

Lemma drain_downloads St W steps : forall pending acc (s : St),
  exists skipped,
    Permutation (downloads (trace_of (drain W steps pending acc s)) ++ skipped)
                (map (fun job => url_of (snd job)) pending).
Proof.
  induction steps as [|[k| |msg] steps IH]; intros pending acc s;
    try (exists (map (fun job => url_of (snd job)) pending);
         destruct pending; reflexivity).
  destruct pending as [|p pending]; [exists []; reflexivity|].
  destruct (@nth_error_mod _ (p :: pending) k) as [job Hj]; [congruence|].
  cbn [drain]. rewrite Hj. unfold bind, in_worker.
  pose proof (worker_downloads (worker_world W (fst job)) (snd job) EmptyString) as Hw.
  destruct (download_video (worker_world W (fst job)) (snd job) EmptyString)
    as [[t title] o].
  unfold trace_of in Hw. cbn [fst] in Hw.
  destruct o as [r|e].
  - destruct (IH (remove_at (k mod List.length (p :: pending)) (p :: pending)) (r :: acc) s)
      as [skipped Hp].
    destruct (drain W steps _ _ s) as [[t' s'] o'].
    unfold trace_of in *. cbn [fst] in *. rewrite downloads_app.
    pose proof (Permutation_map (fun job => url_of (snd job)) (@remove_at_perm _ _ _ _ Hj))
      as Hm. cbn [map] in Hm.
    destruct Hw as [-> | ->]; cbn [app].
    + exists (url_of (snd job) :: skipped).
      rewrite <- Hm. rewrite <- Permutation_middle. constructor. exact Hp.
    + exists skipped. rewrite <- Hm. constructor. exact Hp.
  - unfold trace_of. cbn [fst].
    pose proof (Permutation_map (fun job => url_of (snd job)) (@remove_at_perm _ _ _ _ Hj))
      as Hm. cbn [map] in Hm.
    destruct Hw as [-> | ->]; cbn [app].
    + exists (map (fun job => url_of (snd job)) (p :: pending)). reflexivity.
    + exists (map (fun job => url_of (snd job))
                  (remove_at (k mod List.length (p :: pending)) (p :: pending))).
      exact Hm.
Qed.

(** X12: in every run of [main], interrupted or not, the transfers that
    are started are for input URLs and no input URL is transferred more
    often than it occurs in the list: the started transfers, together
    with the URLs left out, are a rearrangement of the input. *)
Theorem every_url_is_transferred_at_most_once (W : World) (urls : list string)
  (quality output_dir : string) (processes : Z) (cookie : option string)
  (quiet_ydl : bool) (s : Counters) :
  exists skipped,
    Permutation
      (downloads (trace_of (main W urls quality output_dir processes cookie quiet_ydl s))
       ++ skipped)
      urls.
Proof.
  rewrite main_run. cbv zeta.
  pose proof (main_header_log_only W urls quality output_dir processes cookie) as Lh.
  pose proof (ensured_log_only W output_dir) as Le.
  assert (Ls : forall c, downloads (summary_block (os_abspath W output_dir) c) = [])
    by (intros c; apply log_only_downloads, summary_block_log_only).
  destruct (os_makedirs W (os_abspath W output_dir)) as [[]|e0];
    [|exists urls; destruct (is_OSError e0); unfold trace_of; cbn [fst];
      rewrite ?downloads_app, ?downloads_app, (log_only_downloads _ Lh); reflexivity].
  destruct (processes <? 1)%Z.
  { exists urls. unfold trace_of. cbn [fst].
    rewrite !downloads_app, (log_only_downloads _ Lh), (log_only_downloads _ Le), Ls.
    reflexivity. }
  destruct (@drain_downloads Counters W
              (schedule W ++ repeat (Finish 0)
                 (List.length (requests urls quality output_dir cookie quiet_ydl)))%list
              (number (requests urls quality output_dir cookie quiet_ydl)) []
              (mkCounters 0 0 [])) as [skipped Hp].
  rewrite <- map_map, number_snd, requests_urls in Hp.
  exists skipped.
  destruct (outcome_of _) as [results|[e| |code]]; unfold trace_of at 1; cbn [fst];
    repeat (rewrite ?downloads_app; cbn [downloads app]);
    rewrite ?(log_only_downloads _ Lh), ?(log_only_downloads _ Le), ?Ls, ?app_nil_r;
    cbn [app]; exact Hp.
Qed.

(** * Properties of [app.py] *)

Lemma app_for_each_print A (f : A -> string) (l : list A) :
  App.for_each l (fun x => App.print (f x)) = (map (fun x => App.Print (f x)) l, Returned tt).
Proof.
  induction l as [|x l IH]; [reflexivity|].
  cbn [App.for_each map]. rewrite IH. reflexivity.
Qed.

Lemma app_opened_app t t' : App.opened (t ++ t') = (App.opened t ++ App.opened t')%list.
Proof.
  induction t as [|e t IH]; [reflexivity|].
  destruct e; cbn; rewrite IH; reflexivity.
Qed.

Lemma app_transfers_app t t' :
  App.transfers (t ++ t') = (App.transfers t ++ App.transfers t')%list.
Proof.
  induction t as [|e t IH]; [reflexivity|].
  destruct e; cbn; rewrite IH; reflexivity.
Qed.

Lemma app_mkdirs_app t t' : App.mkdirs (t ++ t') = (App.mkdirs t ++ App.mkdirs t')%list.
Proof.
  induction t as [|e t IH]; [reflexivity|].
  destruct e; cbn; rewrite IH; reflexivity.
Qed.

Lemma app_prints_only A (f : A -> string) (l : list A) :
  App.opened (map (fun x => App.Print (f x)) l) = []
  /\ App.transfers (map (fun x => App.Print (f x)) l) = []
  /\ App.mkdirs (map (fun x => App.Print (f x)) l) = [].
Proof. induction l as [|x l IH]; [repeat split|exact IH]. Qed.

(** The [try] block of the worker, by what the outside does. *)
Lemma app_try_run w url quality output_dir :
  App.download_video_try w (url, quality, output_dir) =
  match App.UserAgent_init w with
  | Err e => ([], Raised (Exc e))
  | Ok _ =>
      match App.ua_random w with
      | Err e => ([], Raised (Exc e))
      | Ok user_agent =>
          let opts := App.ydl_opts quality output_dir user_agent in
          match App.enter w opts with
          | Err e => ([App.Open opts], Raised (Exc e))
          | Ok _ =>
              let reports := map (fun d => App.Print ("Progress: " ++ fst d ++ " - " ++ snd d))
                                 (fst (App.transfer w opts [url])) in
              let started :=
                (App.Open opts
                 :: App.Print ("Downloading: " ++ url ++ " with User-Agent: " ++ user_agent)
                 :: App.Transfer url :: reports)%list in
              match snd (App.transfer w opts [url]), App.leave w opts with
              | Ok _, Ok _ =>
                  ((started ++ [App.Print ("Finished downloading: " ++ url); App.Close])%list,
                   Returned tt)
              | Ok _, Err e =>
                  ((started ++ [App.Print ("Finished downloading: " ++ url); App.Close])%list,
                   Raised (Exc e))
              | Err e, Ok _ => ((started ++ [App.Close])%list, Raised (Exc e))
              | Err _, Err e => ((started ++ [App.Close])%list, Raised (Exc e))
              end
          end
      end
  end.
Proof.
  unfold App.download_video_try, App.with_, App.bind, App.call, App.ret, App.raise.
  destruct (App.UserAgent_init w) as [[]|e]; cbn [App.emit]; [|reflexivity].
  destruct (App.ua_random w) as [g|e]; [|reflexivity]. cbv zeta.
  set (opts := App.ydl_opts quality output_dir g).
  destruct (App.enter w opts) as [[]|e]; [|reflexivity].
  rewrite app_for_each_print. unfold App.print, App.emit.
  destruct (snd (App.transfer w opts [url])) as [[]|e], (App.leave w opts) as [[]|e'];
    cbn [app]; rewrite <- ?app_assoc; reflexivity.
Qed.

Lemma app_try_outcome w args :
  match snd (App.download_video_try w args) with
  | Returned _ | Raised (Exc _) => True
  | Raised _ => False
  end.
Proof.
  destruct args as [[url quality] output_dir]. rewrite app_try_run.
  destruct (App.UserAgent_init w) as [[]|e]; [|exact I].
  destruct (App.ua_random w) as [g|e]; [|exact I]. cbv zeta.
  destruct (App.enter w _) as [[]|e]; [|exact I].
  destruct (snd (App.transfer w _ _)) as [[]|e], (App.leave w _) as [[]|e']; exact I.
Qed.

(** X13: the worker of [app.py] never raises and always returns [None]:
    when its [try] block runs through, nothing more is printed; when the
    block raises an exception, the worker prints one line
    ["Error downloading <url>: <message>"] after what the block had
    printed, and returns all the same; the block raises nothing but
    [Exception]s. *)
Theorem app_download_video_contains_failures (w : App.Worker)
  (args : string * string * string) :
  let body := App.download_video_try w args in
  snd (App.download_video w args) = Returned tt /\
  match snd body with
  | Returned _ => App.download_video w args = body
  | Raised (Exc e) =>
      App.download_video w args =
      ((fst body ++ [App.Print ("Error downloading " ++ App.job_url args ++ ": "
                                ++ str_exc e)])%list,
       Returned tt)
  | Raised _ => False
  end.
Proof.
  cbv zeta. unfold App.download_video.
  pose proof (app_try_outcome w args) as Ho.
  destruct (App.download_video_try w args) as [t [[]|[e| |c]]]; cbn [snd fst] in *;
    try contradiction; split; reflexivity.
Qed.

Lemma app_download_video_run w args :
  exists t, App.download_video w args = (t, Returned tt).
Proof.
  pose proof (app_try_outcome w args) as Ho. unfold App.download_video.
  destruct (App.download_video_try w args) as [t [[]|[e| |c]]]; cbn [snd] in Ho;
    try contradiction; eexists; reflexivity.
Qed.

Lemma app_worker_readings w url quality output_dir :
  let t := fst (App.download_video w (url, quality, output_dir)) in
  let entered :=
    match App.UserAgent_init w, App.ua_random w with
    | Ok _, Ok user_agent =>
        match App.enter w (App.ydl_opts quality output_dir user_agent) with
        | Ok _ => true
        | Err _ => false
        end
    | _, _ => false
    end in
  App.opened t =
    match App.UserAgent_init w, App.ua_random w with
    | Ok _, Ok user_agent => [App.ydl_opts quality output_dir user_agent]
    | _, _ => []
    end /\
  App.transfers t = (if entered then [url] else []) /\
  App.mkdirs t = [].
Proof.
  cbv zeta. unfold App.download_video. rewrite app_try_run.
  destruct (App.UserAgent_init w) as [[]|e]; [|repeat split].
  destruct (App.ua_random w) as [g|e]; [|repeat split]. cbv zeta.
  set (opts := App.ydl_opts quality output_dir g).
  destruct (App.enter w opts) as [[]|e]; [|repeat split].
  destruct (app_prints_only (fun d => "Progress: " ++ fst d ++ " - " ++ snd d)
              (fst (App.transfer w opts [url]))) as (Ho & Ht & Hm).
  destruct (snd (App.transfer w opts [url])) as [[]|e], (App.leave w opts) as [[]|e'];
    unfold App.try_except_Exception; cbn [fst snd App.print App.emit];
    repeat (rewrite ?app_opened_app, ?app_transfers_app, ?app_mkdirs_app;
            cbn [App.opened App.transfers App.mkdirs app]);
    rewrite ?Ho, ?Ht, ?Hm; repeat split.
Qed.

(** X14: the option bundle of [app.py].  The worker hands the engine one
    bundle when [UserAgent()] and [ua.random] both succeed, and none
    otherwise (there is no fallback identity, the item just fails); the
    bundle names the cookie file [cookies.txt] whether it exists or not,
    silences the engine, carries the generated identity, and its output
    template is the output directory joined with [%(title)s.%(ext)s],
    not made absolute. *)
Theorem app_options_bundle (w : App.Worker) (url quality output_dir : string) :
  let t := fst (App.download_video w (url, quality, output_dir)) in
  match App.UserAgent_init w, App.ua_random w with
  | Ok _, Ok user_agent =>
      exists opts,
        App.opened t = [opts] /\
        outtmpl opts = path_join output_dir "%(title)s.%(ext)s" /\
        format opts = "bestvideo[height<=" ++ quality ++ "]+bestaudio/best[height<="
                      ++ quality ++ "]" /\
        merge_output_format opts = "mp4" /\
        nocheckcertificate opts = false /\
        quiet opts = true /\
        cookiefile opts = Some "cookies.txt" /\
        http_headers opts = [("User-Agent", user_agent)]
  | _, _ => App.opened t = [] /\ App.transfers t = []
  end.
Proof.
  cbv zeta.
  destruct (app_worker_readings w url quality output_dir) as (Ho & Ht & _).
  destruct (App.UserAgent_init w) as [[]|e]; [|split; assumption].
  destruct (App.ua_random w) as [g|e]; [|split; assumption].
  eexists. split; [exact Ho|]. repeat split.
Qed.

Lemma app_worker_transfers w args :
  App.mkdirs (fst (App.download_video w args)) = [] /\
  (App.transfers (fst (App.download_video w args)) = []
   \/ App.transfers (fst (App.download_video w args)) = [App.job_url args]).
Proof.
  destruct args as [[url quality] output_dir].
  destruct (app_worker_readings w url quality output_dir) as (_ & Ht & Hm).
  split; [exact Hm|]. rewrite Ht.
  match goal with |- context [if ?b then _ else _] => destruct b end;
    [right|left]; reflexivity.
Qed.

(** What [pool.map] leaves in the trace: transfers for pending jobs, each
    at most once, and no directory creation. *)
Lemma app_await_transfers W todo : forall pending acc,
  App.mkdirs (fst (App.await W todo pending acc)) = [] /\
  exists skipped,
    Permutation (App.transfers (fst (App.await W todo pending acc)) ++ skipped)
                (map (fun job => App.job_url (snd job)) pending).
Proof.
  induction todo as [|[k| |msg] todo IH]; intros pending acc;
    try (split; [destruct pending; reflexivity|];
         exists (map (fun job => App.job_url (snd job)) pending);
         destruct pending; reflexivity).
  destruct pending as [|p pending]; [split; [reflexivity|exists []; reflexivity]|].
  destruct (@nth_error_mod _ (p :: pending) k) as [job Hj]; [congruence|].
  cbn [App.await]. rewrite Hj. unfold App.bind.
  destruct (app_worker_transfers (App.worker W (fst job)) (snd job)) as [Hm Hw].
  destruct (app_download_video_run (App.worker W (fst job)) (snd job)) as [t E].
  rewrite E in *. cbn [fst] in *.
  destruct (IH (remove_at (k mod List.length (p :: pending)) (p :: pending)) (tt :: acc))
    as [Hm' [skipped Hp]].
  destruct (App.await W todo _ _) as [t' o']. cbn [fst] in *.
  rewrite app_mkdirs_app, app_transfers_app, Hm, Hm'. split; [reflexivity|].
  pose proof (Permutation_map (fun job => App.job_url (snd job))
                (@remove_at_perm _ _ _ _ Hj)) as Hperm. cbn [map] in Hperm.
  destruct Hw as [-> | ->]; cbn [app].
  - exists (App.job_url (snd job) :: skipped).
    rewrite <- Hperm, <- Permutation_middle. constructor. exact Hp.
  - exists skipped. rewrite <- Hperm. constructor. exact Hp.
Qed.

Lemma app_jobs_urls urls quality output_dir :
  map (fun job => App.job_url (snd job)) (number (App.jobs_of urls quality output_dir)) = urls.
Proof.
  rewrite <- map_map, number_snd. unfold App.jobs_of. rewrite map_map. apply map_id.
Qed.

(** The run of [main] after the directory check. *)
Lemma app_main_run W urls quality output_dir :
  let jobs := App.jobs_of urls quality output_dir in
  let a := App.await W (App.steps W ++ repeat (Finish 0) (List.length jobs))%list
                     (number jobs) [] in
  let pool := (App.PoolUp 4 :: App.Map jobs :: fst a)%list in
  let after := match snd a with
               | Returned _ => Returned tt
               | Raised e => Raised e
               end in
  App.main W urls quality output_dir =
  if App.path_exists W output_dir then (pool, after)
  else match App.makedirs W output_dir with
       | Ok _ => ((App.Mkdir output_dir
                   :: App.Print ("Created output directory: " ++ output_dir) :: pool)%list,
                  after)
       | Err e => ([App.Mkdir output_dir], Raised (Exc e))
       end.
Proof.
  cbv zeta. unfold App.main, App.pool_map, App.with_, App.bind, App.call, App.print,
    App.emit, App.ret, App.raise.
  destruct (App.path_exists W output_dir); cbn [negb app].
  - destruct (App.await W _ _ _) as [t [r|e]]; cbn [fst snd app]; rewrite ?app_nil_r;
      reflexivity.
  - destruct (App.makedirs W output_dir) as [[]|e]; cbn [app]; [|reflexivity].
    destruct (App.await W _ _ _) as [t [r|e]]; cbn [fst snd app]; rewrite ?app_nil_r;
      reflexivity.
Qed.

(** X15: [main] of [app.py] creates the output directory only when it
    does not exist, at most once, under the path as given and before the
    pool is started; a failure of that creation is not handled: [main]
    raises it, and neither a pool nor a transfer is started. *)
Theorem app_main_creates_missing_directory (W : App.World) (urls : list string)
  (quality output_dir : string) :
  let r := App.main W urls quality output_dir in
  App.mkdirs (fst r) = (if App.path_exists W output_dir then [] else [output_dir]) /\
  match App.path_exists W output_dir, App.makedirs W output_dir with
  | false, Err e =>
      r = ([App.Mkdir output_dir], Raised (Exc e)) /\
      App.pools (fst r) = [] /\ App.transfers (fst r) = []
  | false, Ok _ =>
      exists rest,
        fst r = (App.Mkdir output_dir
                 :: App.Print ("Created output directory: " ++ output_dir)
                 :: App.PoolUp 4 :: App.Map (App.jobs_of urls quality output_dir)
                 :: rest)%list
  | true, _ =>
      exists rest,
        fst r = (App.PoolUp 4 :: App.Map (App.jobs_of urls quality output_dir) :: rest)%list
  end.
Proof.
  cbv zeta. rewrite app_main_run. cbv zeta.
  destruct (app_await_transfers W
              (App.steps W ++ repeat (Finish 0)
                 (List.length (App.jobs_of urls quality output_dir)))%list
              (number (App.jobs_of urls quality output_dir)) []) as [Hm _].
  destruct (App.path_exists W output_dir).
  - cbn [fst App.mkdirs]. split; [exact Hm|]. destruct (App.makedirs W output_dir); eauto.
  - destruct (App.makedirs W output_dir) as [[]|e]; cbn [fst App.mkdirs].
    + rewrite Hm. split; [reflexivity|eauto].
    + repeat split.
Qed.

(** X16: in every run of [main] of [app.py] the transfers that are
    started are for input URLs, and no input URL is transferred more often
    than it occurs in the list. *)
Theorem app_every_url_is_transferred_at_most_once (W : App.World) (urls : list string)
  (quality output_dir : string) :
  exists skipped,
    Permutation (App.transfers (fst (App.main W urls quality output_dir)) ++ skipped) urls.
Proof.
  rewrite app_main_run. cbv zeta.
  destruct (app_await_transfers W
              (App.steps W ++ repeat (Finish 0)
                 (List.length (App.jobs_of urls quality output_dir)))%list
              (number (App.jobs_of urls quality output_dir)) []) as [_ [skipped Hp]].
  rewrite app_jobs_urls in Hp.
  destruct (App.path_exists W output_dir); [exists skipped; exact Hp|].
  destruct (App.makedirs W output_dir) as [[]|e]; [exists skipped; exact Hp|].
  exists urls. reflexivity.
Qed.

Lemma app_await_interrupted W ks : forall rest pending acc,
  List.length ks < List.length pending ->
  snd (App.await W (map Finish ks ++ Interrupt :: rest) pending acc)
  = Raised KeyboardInterrupt.
Proof.
  induction ks as [|k ks IH]; intros rest pending acc Hl.
  - destruct pending; [cbn in Hl; lia|reflexivity].
  - destruct pending as [|p pending]; [cbn in Hl; lia|].
    cbn [map app].
    destruct (@nth_error_mod _ (p :: pending) k) as [job Hj]; [congruence|].
    cbn [App.await]. rewrite Hj. unfold App.bind.
    destruct (app_download_video_run (App.worker W (fst job)) (snd job)) as [t E].
    rewrite E.
    pose proof (@remove_at_length _ _ _ _ Hj) as Hlen.
    set (left := remove_at (k mod List.length (p :: pending)) (p :: pending)) in *.
    specialize (IH rest left (tt :: acc)).
    destruct (App.await W _ left _) as [t' o]. apply IH.
    change (List.length (k :: ks)) with (S (List.length ks)) in Hl.
    change (List.length (p :: pending)) with (S (List.length pending)) in Hl, Hlen. lia.
Qed.

(** X17: [main] of [app.py] handles no interruption: when the user's
    signal arrives while [pool.map] still waits for a job, [main] ends
    with [KeyboardInterrupt], whatever the workers had finished. *)
Theorem app_interruption_is_not_handled (W : App.World) (urls : list string)
  (quality output_dir : string) (ks : list nat) (rest : list PoolStep) :
  App.path_exists W output_dir = true \/ App.makedirs W output_dir = Ok tt ->
  App.steps W = (map Finish ks ++ Interrupt :: rest)%list ->
  List.length ks < List.length urls ->
  snd (App.main W urls quality output_dir) = Raised KeyboardInterrupt.
Proof.
  intros Hd Hs Hl. rewrite app_main_run. cbv zeta.
  assert (Ha : snd (App.await W (App.steps W ++ repeat (Finish 0)
                       (List.length (App.jobs_of urls quality output_dir)))%list
                       (number (App.jobs_of urls quality output_dir)) [])
               = Raised KeyboardInterrupt).
  { rewrite Hs, <- app_assoc. cbn [app]. apply app_await_interrupted.
    rewrite number_length. unfold App.jobs_of. rewrite length_map. exact Hl. }
  destruct (App.path_exists W output_dir); [cbn [snd]; rewrite Ha; reflexivity|].
  destruct Hd as [Hd|Hd]; [discriminate Hd|]. rewrite Hd. cbn [snd]. rewrite Ha. reflexivity.
Qed.

Lemma app_interruption_witness :
  (App.path_exists (App.world true (Ok tt) [Finish 0; Interrupt]) "out" = true
   \/ App.makedirs (App.world true (Ok tt) [Finish 0; Interrupt]) "out" = Ok tt) /\
  App.steps (App.world true (Ok tt) [Finish 0; Interrupt])
  = (map Finish [0] ++ Interrupt :: [])%list /\
  List.length [0] < List.length Ex.urls /\
  snd (App.main (App.world true (Ok tt) [Finish 0; Interrupt]) Ex.urls "720" "out")
  = Raised KeyboardInterrupt.
Proof.
  split; [left; reflexivity|]. split; [reflexivity|]. split; [cbn; lia|].
  apply (@app_interruption_is_not_handled (App.world true (Ok tt) [Finish 0; Interrupt])
           Ex.urls "720" "out" [0] []); [left; reflexivity|reflexivity|cbn; lia].
Defined.
